(** * The Azure blob-storage datastore of go-datastore, embedded in Rocq

    [src/azure/azure.go] maps the generic datastore interface
    (Put / Get / Has / GetSize / Delete / Query / DiskUsage) onto the
    Azure blob SDK.  The file holds several revisions of the package one
    after the other; the two that are well-formed Go are embedded here:

    - [Azure]      : lines 154-360, the revision with [isError] and the
                     wait group in [Query];
    - [AzureDraft] : lines 361-509, the revision that forwards every
                     backend error as it is.

    The SDK ([azblob]) is an external library: it is a parameter of the
    development, a record of functions over an abstract remote world.
    Every SDK call follows Go's convention and yields a response pointer
    (possibly nil, an [option]) next to an [error]. *)

From Stdlib Require Import ZArith Lia.
From Stdlib.Strings Require Import Byte.
From stdpp Require Import base gmap strings list.

(** ** Go values *)

(** A [[]byte]: the nil slice is distinct from the empty one. *)
Definition GoBytes : Type := option (list byte).

Definition bytes_content (b : GoBytes) : list byte := default [] b.

(** [int] on the 64-bit targets; conversions wrap around. *)
Definition int_bits : Z := 64.

Definition wrap_signed (bits x : Z) : Z :=
  ((x + 2 ^ (bits - 1)) mod 2 ^ bits - 2 ^ (bits - 1))%Z.

Definition int64_range (x : Z) : Prop := (- 2 ^ 63 <= x < 2 ^ 63)%Z.

(** [int(x)] for [x : int64]. *)
Definition int_of_int64 (x : Z) : Z := wrap_signed int_bits x.

(** ** Errors *)

(** [azblob.ServiceCodeType] is a string type. *)
Definition ServiceCodeType : Type := string.

Definition ServiceCodeBlobNotFound : ServiceCodeType := "BlobNotFound".
Definition ServiceCodeContainerAlreadyExists : ServiceCodeType :=
  "ContainerAlreadyExists".

(** Go's [error] values, as far as the adapter can tell them apart:
    nil, the datastore's own not-found value ([ds.ErrNotFound], declared
    in the repository's root package, outside src/; the spec's "generic
    not-found signal"), an [azblob.StorageError] with its service code,
    any other error, and an error wrapping another one (what [errors.As]
    walks through). *)
Inductive error : Type :=
| nil_err
| ErrNotFound
| StorageError (code : ServiceCodeType) (detail : string)
| errorString (msg : string)
| wrapError (msg : string) (cause : error).

(** [err == nil] *)
Definition is_nil (e : error) : bool :=
  match e with nil_err => true | _ => false end.

(** [errors.As(err, &serr)] with [serr : azblob.StorageError]: the first
    storage error on the unwrap chain, if there is one. *)
Fixpoint errors_As_StorageError (e : error) : option ServiceCodeType :=
  match e with
  | StorageError c _ => Some c
  | wrapError _ cause => errors_As_StorageError cause
  | nil_err | ErrNotFound | errorString _ => None
  end.

Definition isError (err : error) (e : ServiceCodeType) : bool :=
  match errors_As_StorageError err with
  | Some c => bool_decide (c = e)
  | None => false
  end.

(** ** Keys *)

(** Modelled from the spec: [ds.Key] is declared in the repository's root
    package, outside src/.  "Key: an opaque hierarchical path-like
    identifier ..., used verbatim as the blob name." *)
Record Key : Type := mkKey { Key_String : string }.

(** ** What the SDK hands back *)

Definition URL : Type := string.

Inductive SharedKeyCredential : Type :=
| mkCredential (accountName accountKey : string).

Record ContainerURL : Type := mkContainerURL {
  cu_url : URL;
  cu_credential : option SharedKeyCredential
}.

Record BlockBlobURL : Type := mkBlockBlobURL {
  bb_container : ContainerURL;
  bb_name : string
}.

Definition NewBlockBlobURL (c : ContainerURL) (name : string) : BlockBlobURL :=
  mkBlockBlobURL c name.

Inductive AccessTierType : Type := AccessTierNone | AccessTierCool.

Inductive DeleteSnapshotsOptionType : Type :=
| DeleteSnapshotsOptionNone
| DeleteSnapshotsOptionInclude.

(** [azblob.Marker] wraps a [*string]. *)
Definition Marker : Type := option string.

Definition NotDone (m : Marker) : bool :=
  match m with
  | None => true
  | Some v => negb (bool_decide (v = ""))
  end.

Record ResponseStatus : Type := mkStatus {
  rs_Status : string;
  rs_StatusCode : Z
}.

(** The body of a download: the bytes the retry reader delivers and the
    error that ends the stream ([nil_err] for a clean end of file). *)
Record DownloadResponse : Type := mkDownloadResponse {
  dr_status : ResponseStatus;
  dr_body : list byte;
  dr_body_err : error
}.

Record BlobGetPropertiesResponse : Type := mkPropertiesResponse {
  gp_status : ResponseStatus;
  gp_ContentLength : Z
}.

Record BlobItem : Type := mkBlobItem {
  Name : string;
  Properties_ContentLength : option Z
}.

Record ListBlobsFlatSegmentResponse : Type := mkListResponse {
  Segment_BlobItems : list BlobItem;
  NextMarker : Marker
}.

(** ** The backend and the effects of the adapter *)

Inductive Request : Type :=
| ReqCreate (c : ContainerURL)
| ReqUpload (b : BlockBlobURL) (body : list byte) (tier : AccessTierType)
| ReqDownload (b : BlockBlobURL) (offset count : Z)
| ReqGetProperties (b : BlockBlobURL)
| ReqDelete (b : BlockBlobURL) (o : DeleteSnapshotsOptionType)
| ReqListBlobsFlatSegment (c : ContainerURL) (m : Marker).

(** A request that transfers blob content. *)
Definition fetches_content (r : Request) : bool :=
  match r with
  | ReqDownload _ _ _ => true
  | _ => false
  end.

(** A request for a blob's metadata only. *)
Definition metadata_only (r : Request) : bool :=
  match r with
  | ReqGetProperties _ => true
  | _ => false
  end.

Definition reply (R W : Type) : Type := (option R * error) * W.

Record Backend (W : Type) : Type := mkBackend {
  be_url_Parse : string -> option URL;
  be_NewSharedKeyCredential :
    string -> string -> option SharedKeyCredential * error;
  be_Create : ContainerURL -> W -> reply ResponseStatus W;
  be_Upload :
    BlockBlobURL -> list byte -> AccessTierType -> W -> reply ResponseStatus W;
  be_Download : BlockBlobURL -> Z -> Z -> W -> reply DownloadResponse W;
  be_GetProperties : BlockBlobURL -> W -> reply BlobGetPropertiesResponse W;
  be_Delete :
    BlockBlobURL -> DeleteSnapshotsOptionType -> W -> reply ResponseStatus W;
  be_ListBlobsFlatSegment :
    ContainerURL -> Marker -> W -> reply ListBlobsFlatSegmentResponse W
}.

Arguments be_url_Parse {W} _ _.
Arguments be_NewSharedKeyCredential {W} _ _ _.
Arguments be_Create {W} _ _ _.
Arguments be_Upload {W} _ _ _ _ _.
Arguments be_Download {W} _ _ _ _ _.
Arguments be_GetProperties {W} _ _ _.
Arguments be_Delete {W} _ _ _ _.
Arguments be_ListBlobsFlatSegment {W} _ _ _ _.

(** The state a call runs in: the remote world, the requests sent so far
    (oldest first) and what was printed. *)
Record state (W : Type) : Type := mkState {
  world : W;
  requests : list Request;
  stdout : list string
}.

Arguments mkState {W} _ _ _.
Arguments world {W} _.
Arguments requests {W} _.
Arguments stdout {W} _.

(** A call either returns or panics (nil dereference and the like). *)
Inductive exec (A : Type) : Type :=
| Done (a : A)
| Panic (msg : string).

Arguments Done {A} _.
Arguments Panic {A} _.

Definition M (W A : Type) : Type := state W -> exec A * state W.

Global Instance M_ret {W} : MRet (M W) := fun A a s => (Done a, s).

Global Instance M_bind {W} : MBind (M W) := fun A B k m s =>
  match m s with
  | (Done a, s') => k a s'
  | (Panic msg, s') => (Panic msg, s')
  end.

Definition nil_dereference : string :=
  "invalid memory address or nil pointer dereference".

(** Using a response through its pointer. *)
Definition deref {W A} (p : option A) : M W A :=
  match p with
  | Some a => mret a
  | None => fun s => (Panic nil_dereference, s)
  end.

Definition Println {W} (line : string) : M W unit :=
  fun s => (Done tt, mkState (world s) (requests s) (stdout s ++ [line])).

(** One SDK call: the request is recorded, the backend answers and moves
    the world on. *)
Definition call {W R} (req : Request) (f : W -> reply R W)
  : M W (option R * error) :=
  fun s =>
    let '(r, w') := f (world s) in
    (Done r, mkState w' (requests s ++ [req]) (stdout s)).

Section Calls.
Context {W : Type} (B : Backend W).

Definition Create (c : ContainerURL) :=
  call (ReqCreate c) (be_Create B c).

Definition Upload (b : BlockBlobURL) (body : list byte) (t : AccessTierType) :=
  call (ReqUpload b body t) (be_Upload B b body t).

Definition Download (b : BlockBlobURL) (offset count : Z) :=
  call (ReqDownload b offset count) (be_Download B b offset count).

Definition GetProperties (b : BlockBlobURL) :=
  call (ReqGetProperties b) (be_GetProperties B b).

Definition Delete_blob (b : BlockBlobURL) (o : DeleteSnapshotsOptionType) :=
  call (ReqDelete b o) (be_Delete B b o).

Definition ListBlobsFlatSegment (c : ContainerURL) (m : Marker) :=
  call (ReqListBlobsFlatSegment c m) (be_ListBlobsFlatSegment B c m).
End Calls.

(** [b.ReadFrom(reader); b.Bytes()] on a fresh buffer: whatever the reader
    delivered, in a slice that is never nil; the error of [ReadFrom] is
    dropped by the callers. *)
Definition ReadFrom_Bytes (r : DownloadResponse) : GoBytes := Some (dr_body r).

(** ["https://%s.blob.core.windows.net/%s"] *)
Definition container_address (accountName container : string) : string :=
  ("https://" ++ accountName ++ ".blob.core.windows.net/" ++ container)%string.

(** ** The current revision (azure.go, lines 154-360) *)

Module Azure.

(** [putcache] is a [map[string]struct{}] that no constructor ever
    allocates: it stays nil. *)
Record datastore : Type := mkDatastore {
  containerUrl : ContainerURL;
  putcache : option (gset string)
}.

Section Operations.
Context {W : Type} (B : Backend W).

Definition NewDatastore (accountName accountKey container : string)
  : M W (option datastore * error) :=
  let u := be_url_Parse B (container_address accountName container) in
  let '(credential, err) := be_NewSharedKeyCredential B accountName accountKey in
  if negb (is_nil err) then mret (None, err)
  else
    u' ← deref u;
    let curl := mkContainerURL u' credential in
    '(_, err) ← Create B curl;
    if negb (is_nil err) then
      if negb (isError err ServiceCodeContainerAlreadyExists)
      then mret (None, err)
      else mret (Some (mkDatastore curl None), nil_err)
    else mret (Some (mkDatastore curl None), nil_err).

Definition keyUrl (d : datastore) (key : Key) : BlockBlobURL :=
  NewBlockBlobURL (containerUrl d) (Key_String key).

Definition Put (d : datastore) (key : Key) (value : GoBytes) : M W error :=
  let blob := keyUrl d key in
  '(_, err) ← Upload B blob (bytes_content value) AccessTierNone;
  mret err.

Definition Sync (d : datastore) (prefix : Key) : M W error := mret nil_err.

Definition Get (d : datastore) (key : Key) : M W (GoBytes * error) :=
  let blob := keyUrl d key in
  '(get, err) ← Download B blob 0 0;
  if negb (is_nil err) then
    if isError err ServiceCodeBlobNotFound then mret (None, ErrNotFound)
    else mret (None, err)
  else
    get' ← deref get;
    mret (ReadFrom_Bytes get', nil_err).

Definition Has (d : datastore) (key : Key) : M W (bool * error) :=
  let blob := keyUrl d key in
  '(_, err) ← GetProperties B blob;
  if negb (is_nil err) then
    if isError err ServiceCodeBlobNotFound then mret (false, nil_err)
    else mret (false, err)
  else mret (true, nil_err).

Definition GetSize (d : datastore) (key : Key) : M W (Z * error) :=
  let blob := keyUrl d key in
  '(prop, err) ← GetProperties B blob;
  if negb (is_nil err) then
    if isError err ServiceCodeBlobNotFound then mret ((-1)%Z, ErrNotFound)
    else mret (0%Z, err)
  else
    prop' ← deref prop;
    _ ← Println (rs_Status (gp_status prop'));
    mret (int_of_int64 (gp_ContentLength prop'), nil_err).

Definition Delete (d : datastore) (key : Key) : M W error :=
  let blob := keyUrl d key in
  '(_, err) ← Delete_blob B blob DeleteSnapshotsOptionInclude;
  if negb (isError err ServiceCodeBlobNotFound) then mret err
  else mret nil_err.

Definition Close (d : datastore) : M W error := mret nil_err.

(** The result is a [uint64]. *)
Definition DiskUsage (d : datastore) : M W (Z * error) := mret (100%Z, nil_err).

End Operations.

(** *** Query: the listing goroutine and the fetches it launches *)

(** Modelled from the spec: [query.Query] is declared in the repository's
    query package, outside src/.  "Keys-only query: a listing request
    that returns key/size metadata without fetching blob bodies."  Only
    [KeysOnly] is read by the adapter. *)
Record Query_spec : Type := mkQuery { KeysOnly : bool }.

(** Modelled from the spec: [query.Result] and its [Entry] are declared
    in the repository's query package, outside src/.  "Entry: the pair
    (Key, Value-or-omitted, Size) returned by listing"; a fetch failure
    "is reported per-entry via that Entry's error field".  [ds.NewKey],
    from the root package, is a parameter of the goroutines below. *)
Record Result : Type := mkResult {
  Entry_Key : string;
  Entry_Value : GoBytes;
  Entry_Size : Z;
  Error : error
}.

(** [err.Error()] *)
Fixpoint Error_text (e : error) : string :=
  match e with
  | nil_err => ""
  | ErrNotFound => "datastore: key not found"
  | StorageError c detail => (c ++ ": " ++ detail)%string
  | errorString msg => msg
  | wrapError msg cause => (msg ++ ": " ++ Error_text cause)%string
  end.

(** Where the listing goroutine stands. *)
Inductive lister : Type :=
| AtLoop (marker : Marker)
| AfterList (list : option ListBlobsFlatSegmentResponse) (err : error)
| AtRange (list : option ListBlobsFlatSegmentResponse)
| InRange (items : list BlobItem) (list : ListBlobsFlatSegmentResponse)
| AtWait
| AtClose
| Returned.

(** Where a fetch goroutine stands: before [d.Get], before the send,
    before the deferred [wg.Done], or gone. *)
Inductive stage : Type := Fetching | Sending | Deferred | Exited.

(** A fetch goroutine with the variables its closure captured. *)
Record fetch : Type := mkFetch {
  f_stage : stage;
  f_key : Key;
  f_result : Result
}.

Inductive choice : Type :=
| Lister
| Fetch (i : nat).

Section Goroutines.
Context {W : Type} (B : Backend W) (NewKey : string -> Key).

(** The goroutines of one [Query], the wait group, the [results] channel
    (whether it is closed, how often it was closed, what the consumer has
    received from it), the blobs whose loop iteration is over, the error
    log, and the state the SDK calls run in. *)
Record qstate : Type := mkQ {
  q_lister : lister;
  q_fetches : list fetch;
  q_wg : Z;
  q_closed : bool;
  q_closes : nat;
  q_results : list Result;
  q_listed : list BlobItem;
  q_log : list string;
  q_state : state W;
  q_panic : option string
}.

Definition set_lister (l : lister) (s : qstate) : qstate :=
  mkQ l (q_fetches s) (q_wg s) (q_closed s) (q_closes s) (q_results s)
      (q_listed s) (q_log s) (q_state s) (q_panic s).

Definition set_state (st : state W) (s : qstate) : qstate :=
  mkQ (q_lister s) (q_fetches s) (q_wg s) (q_closed s) (q_closes s)
      (q_results s) (q_listed s) (q_log s) st (q_panic s).

Definition set_fetches (fs : list fetch) (s : qstate) : qstate :=
  mkQ (q_lister s) fs (q_wg s) (q_closed s) (q_closes s) (q_results s)
      (q_listed s) (q_log s) (q_state s) (q_panic s).

Definition wg_Add (n : Z) (s : qstate) : qstate :=
  let s' := mkQ (q_lister s) (q_fetches s) (q_wg s + n) (q_closed s)
                (q_closes s) (q_results s) (q_listed s) (q_log s)
                (q_state s) (q_panic s) in
  if (q_wg s + n <? 0)%Z
  then mkQ (q_lister s') (q_fetches s') (q_wg s') (q_closed s') (q_closes s')
           (q_results s') (q_listed s') (q_log s') (q_state s')
           (Some "sync: negative WaitGroup counter")
  else s'.

Definition panic (msg : string) (s : qstate) : qstate :=
  mkQ (q_lister s) (q_fetches s) (q_wg s) (q_closed s) (q_closes s)
      (q_results s) (q_listed s) (q_log s) (q_state s) (Some msg).

Definition listed (blob : BlobItem) (s : qstate) : qstate :=
  mkQ (q_lister s) (q_fetches s) (q_wg s) (q_closed s) (q_closes s)
      (q_results s) (q_listed s ++ [blob]) (q_log s) (q_state s) (q_panic s).

Definition log_Errorf (line : string) (s : qstate) : qstate :=
  mkQ (q_lister s) (q_fetches s) (q_wg s) (q_closed s) (q_closes s)
      (q_results s) (q_listed s) (q_log s ++ [line]) (q_state s) (q_panic s).

(** [close(results)] *)
Definition close_results (s : qstate) : qstate :=
  if q_closed s then panic "close of closed channel" s
  else mkQ (q_lister s) (q_fetches s) (q_wg s) true (S (q_closes s))
           (q_results s) (q_listed s) (q_log s) (q_state s) (q_panic s).

(** [results <- result], with a consumer that takes what is offered. *)
Definition send (r : Result) (s : qstate) : qstate :=
  if q_closed s then panic "send on closed channel" s
  else mkQ (q_lister s) (q_fetches s) (q_wg s) (q_closed s) (q_closes s)
           (q_results s ++ [r]) (q_listed s) (q_log s) (q_state s) (q_panic s).

Definition step_lister (d : datastore) (q : Query_spec) (s : qstate)
  : option qstate :=
  match q_lister s with
  | AtLoop marker =>
      if NotDone marker then
        match ListBlobsFlatSegment B (containerUrl d) marker (q_state s) with
        | (Done (list, err), st') =>
            Some (set_lister (AfterList list err) (set_state st' s))
        | (Panic msg, st') => Some (panic msg (set_state st' s))
        end
      else Some (set_lister AtWait s)
  | AfterList list err =>
      if negb (is_nil err) then
        Some (set_lister (AtRange list)
                (close_results
                   (log_Errorf ("query failed with " ++ Error_text err) s)))
      else Some (set_lister (AtRange list) s)
  | AtRange list =>
      match list with
      | None => Some (panic nil_dereference s)
      | Some l => Some (set_lister (InRange (Segment_BlobItems l) l) s)
      end
  | InRange [] l => Some (set_lister (AtLoop (NextMarker l)) s)
  | InRange (blob :: rest) l =>
      let key := NewKey (Name blob) in
      match Properties_ContentLength blob with
      | None => Some (panic nil_dereference s)
      | Some len =>
          let result :=
            mkResult (Key_String key) None (int_of_int64 len) nil_err in
          let s' := set_lister (InRange rest l) (listed blob s) in
          if negb (KeysOnly q) then
            Some (set_fetches (q_fetches s ++ [mkFetch Fetching key result])
                    (wg_Add 1 s'))
          else Some (send result s')
      end
  | AtWait => if (q_wg s =? 0)%Z then Some (set_lister AtClose s) else None
  | AtClose => Some (set_lister Returned (close_results s))
  | Returned => None
  end.

Definition step_fetch (d : datastore) (i : nat) (s : qstate) : option qstate :=
  match q_fetches s !! i with
  | None => None
  | Some f =>
      match f_stage f with
      | Fetching =>
          match Get B d (f_key f) (q_state s) with
          | (Done (value, err), st') =>
              let r := f_result f in
              let r' := mkResult (Entry_Key r) value (Entry_Size r) err in
              Some (set_fetches
                      (<[i := mkFetch Sending (f_key f) r']> (q_fetches s))
                      (set_state st' s))
          | (Panic msg, st') => Some (panic msg (set_state st' s))
          end
      | Sending =>
          if q_closed s then Some (send (f_result f) s)
          else
            Some (set_fetches
                    (<[i := mkFetch Deferred (f_key f) (f_result f)]>
                       (q_fetches s))
                    (send (f_result f) s))
      | Deferred =>
          Some (set_fetches
                  (<[i := mkFetch Exited (f_key f) (f_result f)]> (q_fetches s))
                  (wg_Add (-1) s))
      | Exited => None
      end
  end.

(** One scheduling step; a panic ends the process. *)
Definition step (d : datastore) (q : Query_spec) (c : choice) (s : qstate)
  : option qstate :=
  match q_panic s with
  | Some _ => None
  | None =>
      match c with
      | Lister => step_lister d q s
      | Fetch i => step_fetch d i s
      end
  end.

Fixpoint run (d : datastore) (q : Query_spec) (cs : list choice) (s : qstate)
  : option qstate :=
  match cs with
  | [] => Some s
  | c :: cs' =>
      match step d q c s with
      | Some s' => run d q cs' s'
      | None => None
      end
  end.

(** [Query] makes the channel and starts the listing goroutine with the
    zero marker and wait group; the channel then goes to
    [query.ResultsWithChan] and [query.NaiveQueryApply], the consumer. *)
Definition Query (d : datastore) (q : Query_spec) (st : state W) : qstate :=
  mkQ (AtLoop None) [] 0 false 0 [] [] [] st None.

(** A fetch that has not yet sent its result and signalled the wait
    group is in flight. *)
Definition in_flight (f : fetch) : bool :=
  match f_stage f with
  | Fetching | Sending | Deferred => true
  | Exited => false
  end.

End Goroutines.
End Azure.

(** ** The draft revision (azure.go, lines 361-509) *)

Module AzureDraft.

Record datastore : Type := mkDatastore { containerUrl : ContainerURL }.

Section Operations.
Context {W : Type} (B : Backend W).

Definition NewDatastore (accountName accountKey container : string)
  : M W (option datastore * error) :=
  let u := be_url_Parse B (container_address accountName container) in
  let '(credential, err) := be_NewSharedKeyCredential B accountName accountKey in
  if negb (is_nil err) then mret (None, err)
  else
    u' ← deref u;
    let curl := mkContainerURL u' credential in
    '(create, err) ← Create B curl;
    if negb (is_nil err) then mret (None, err)
    else
      create' ← deref create;
      _ ← Println (rs_Status create');
      mret (Some (mkDatastore curl), nil_err).

Definition keyUrl (d : datastore) (key : Key) : BlockBlobURL :=
  NewBlockBlobURL (containerUrl d) (Key_String key).

Definition Put (d : datastore) (key : Key) (value : GoBytes) : M W error :=
  let blob := keyUrl d key in
  '(put, err) ← Upload B blob (bytes_content value) AccessTierCool;
  put' ← deref put;
  _ ← Println (rs_Status put');
  mret err.

Definition Get (d : datastore) (key : Key) : M W (GoBytes * error) :=
  let blob := keyUrl d key in
  '(get, err) ← Download B blob 0 0;
  if negb (is_nil err) then mret (None, err)
  else
    get' ← deref get;
    mret (ReadFrom_Bytes get', nil_err).

Definition Has (d : datastore) (key : Key) : M W (bool * error) :=
  let blob := keyUrl d key in
  '(prop, err) ← GetProperties B blob;
  if negb (is_nil err) then mret (false, err)
  else
    prop' ← deref prop;
    _ ← Println (rs_Status (gp_status prop'));
    mret ((rs_StatusCode (gp_status prop') =? 200)%Z, nil_err).

Definition GetSize (d : datastore) (key : Key) : M W (Z * error) :=
  let blob := keyUrl d key in
  '(prop, err) ← GetProperties B blob;
  if negb (is_nil err) then mret (0%Z, err)
  else
    prop' ← deref prop;
    _ ← Println (rs_Status (gp_status prop'));
    mret (int_of_int64 (gp_ContentLength prop'), nil_err).

Definition Delete (d : datastore) (key : Key) : M W error :=
  let blob := keyUrl d key in
  '(del, err) ← Delete_blob B blob DeleteSnapshotsOptionInclude;
  del' ← deref del;
  _ ← Println (rs_Status del');
  mret err.

Definition DiskUsage (d : datastore) : M W (Z * error) := mret (100%Z, nil_err).

End Operations.
End AzureDraft.

(** ** An in-memory backend

    A container as a finite map from blob names to contents, with
    failures that can be injected per blob and per listing marker.  It
    instantiates [Backend]; the adapter is run on it below. *)

Module Mem.

Record World : Type := mkWorld {
  container_exists : bool;
  blobs : gmap string (list byte);
  blob_faults : gmap string error;
  list_faults : gmap string error;
  page_size : nat
}.

Definition ok (code : Z) (text : string) : ResponseStatus := mkStatus text code.

Definition not_found : error :=
  StorageError ServiceCodeBlobNotFound "The specified blob does not exist.".

Definition already_exists : error :=
  StorageError ServiceCodeContainerAlreadyExists
               "The specified container already exists.".

Definition set_blobs (m : gmap string (list byte)) (w : World) : World :=
  mkWorld (container_exists w) m (blob_faults w) (list_faults w) (page_size w).

(** The failure injected under a name; a nil entry injects nothing. *)
Definition fault (faults : gmap string error) (name : string) : option error :=
  match faults !! name with
  | Some e => if is_nil e then None else Some e
  | None => None
  end.

Definition Create (c : ContainerURL) (w : World) : reply ResponseStatus World :=
  if container_exists w then ((None, already_exists), w)
  else ((Some (ok 201 "201 Created"), nil_err),
        mkWorld true (blobs w) (blob_faults w) (list_faults w) (page_size w)).

Definition Upload (b : BlockBlobURL) (body : list byte) (t : AccessTierType)
  (w : World) : reply ResponseStatus World :=
  match fault (blob_faults w) (bb_name b) with
  | Some e => ((None, e), w)
  | None => ((Some (ok 201 "201 Created"), nil_err),
             set_blobs (<[bb_name b := body]> (blobs w)) w)
  end.

(** A range of a blob; a count of 0 reads to the end. *)
Definition range (offset count : Z) (body : list byte) : list byte :=
  let rest := drop (Z.to_nat offset) body in
  if (count =? 0)%Z then rest else take (Z.to_nat count) rest.

Definition Download (b : BlockBlobURL) (offset count : Z) (w : World)
  : reply DownloadResponse World :=
  match fault (blob_faults w) (bb_name b) with
  | Some e => ((None, e), w)
  | None =>
      match blobs w !! bb_name b with
      | None => ((None, not_found), w)
      | Some body =>
          ((Some (mkDownloadResponse (ok 200 "200 OK")
                    (range offset count body) nil_err), nil_err), w)
      end
  end.

Definition GetProperties (b : BlockBlobURL) (w : World)
  : reply BlobGetPropertiesResponse World :=
  match fault (blob_faults w) (bb_name b) with
  | Some e => ((None, e), w)
  | None =>
      match blobs w !! bb_name b with
      | None => ((None, not_found), w)
      | Some body =>
          ((Some (mkPropertiesResponse (ok 200 "200 OK")
                    (Z.of_nat (length body))), nil_err), w)
      end
  end.

Definition Delete (b : BlockBlobURL) (o : DeleteSnapshotsOptionType)
  (w : World) : reply ResponseStatus World :=
  match fault (blob_faults w) (bb_name b) with
  | Some e => ((None, e), w)
  | None =>
      match blobs w !! bb_name b with
      | None => ((None, not_found), w)
      | Some _ =>
          ((Some (ok 202 "202 Accepted"), nil_err),
           set_blobs (delete (bb_name b) (blobs w)) w)
      end
  end.

(** What is left of the listing after the blob the marker names. *)
Fixpoint after (name : string) (l : list (string * list byte))
  : list (string * list byte) :=
  match l with
  | [] => []
  | (n, _) :: l' => if bool_decide (n = name) then l' else after name l'
  end.

Definition item (e : string * list byte) : BlobItem :=
  mkBlobItem e.1 (Some (Z.of_nat (length e.2))).

Definition marker_text (m : Marker) : string := default "" m.

Definition ListBlobsFlatSegment (c : ContainerURL) (m : Marker) (w : World)
  : reply ListBlobsFlatSegmentResponse World :=
  match fault (list_faults w) (marker_text m) with
  | Some e => ((None, e), w)
  | None =>
      let all := map_to_list (blobs w) in
      let rest := match m with None => all | Some n => after n all end in
      let page := take (S (page_size w)) rest in
      let next :=
        match drop (S (page_size w)) rest with
        | [] => Some ""
        | _ :: _ => Some (default "" (last (page.*1)))
        end in
      ((Some (mkListResponse (item <$> page) next), nil_err), w)
  end.

Definition backend : Backend World :=
  mkBackend World
    (fun s => Some s)
    (fun name key => (Some (mkCredential name key), nil_err))
    Create Upload Download GetProperties Delete ListBlobsFlatSegment.

(** [ds.NewKey] on names that are clean keys already. *)
Definition NewKey (name : string) : Key := mkKey name.

Definition the_container : ContainerURL :=
  mkContainerURL "https://account.blob.core.windows.net/data"
                 (Some (mkCredential "account" "a2V5")).

Definition fresh (w : World) : state World := mkState w [] [].

Definition store : Azure.datastore := Azure.mkDatastore the_container None.

Definition draft_store : AzureDraft.datastore :=
  AzureDraft.mkDatastore the_container.

(** What a [Get] of key [k] gives while the world is [w]. *)
Definition stored (w : World) (k : Key) : GoBytes * error :=
  match (Azure.Get backend store k (fresh w)).1 with
  | Done r => r
  | Panic _ => (None, nil_err)
  end.

(** Some worlds: an empty container, no container yet, two blobs listed
    one per page, the same with [/a/c] unreachable, and the same with the
    second listing page failing. *)
Definition hello : list byte := String.list_byte_of_string "hello".
Definition world_bytes : list byte := String.list_byte_of_string "world".

Definition empty : World := mkWorld true ∅ ∅ ∅ 0.

Definition no_container : World := mkWorld false ∅ ∅ ∅ 0.

Definition two_blobs : gmap string (list byte) :=
  <["/a/b" := hello]> (<["/a/c" := world_bytes]> ∅).

Definition sample : World := mkWorld true two_blobs ∅ ∅ 0.

Definition connection_reset : error :=
  errorString "read tcp: connection reset by peer".

Definition unreachable_blob : World :=
  mkWorld true two_blobs (<["/a/c" := connection_reset]> ∅) ∅ 0.

Definition second_page_fails : World :=
  mkWorld true two_blobs ∅ (<["/a/c" := connection_reset]> ∅) 0.

(** A query for values, and a schedule that runs it to the end over two
    pages: the lister up to [wg.Wait()], the two fetches one after the
    other, the lister to its return. *)
Definition for_values : Azure.Query_spec := Azure.mkQuery false.

Definition schedule : list Azure.choice :=
  replicate 11 Azure.Lister
    ++ replicate 3 (Azure.Fetch 0) ++ replicate 3 (Azure.Fetch 1)
    ++ replicate 2 Azure.Lister.

Definition outcome (w : World) : Azure.qstate :=
  default (Azure.Query store for_values (fresh w))
    (Azure.run backend NewKey store for_values schedule
       (Azure.Query store for_values (fresh w))).

End Mem.

(** A backend without a world whose delete always gives the same answer;
    every other call fails. *)
Definition offline : error := errorString "dial tcp: no route to host".

Definition delete_answers (r : option ResponseStatus * error) : Backend unit :=
  mkBackend unit
    (fun s => Some s)
    (fun name key => (Some (mkCredential name key), nil_err))
    (fun _ w => ((None, offline), w))
    (fun _ _ _ w => ((None, offline), w))
    (fun _ _ _ w => ((None, offline), w))
    (fun _ w => ((None, offline), w))
    (fun _ _ w => (r, w))
    (fun _ _ w => ((None, offline), w)).


(** A backend without a world whose listing always gives the same
    answer; every other call fails. *)
Definition listing_answers
  (r : option ListBlobsFlatSegmentResponse * error) : Backend unit :=
  mkBackend unit
    (fun s => Some s)
    (fun name key => (Some (mkCredential name key), nil_err))
    (fun _ w => ((None, offline), w))
    (fun _ _ _ w => ((None, offline), w))
    (fun _ _ _ w => ((None, offline), w))
    (fun _ w => ((None, offline), w))
    (fun _ _ w => ((None, offline), w))
    (fun _ _ w => (r, w)).

(** A backend without a world whose download always gives the same
    answer; every other call fails. *)
Definition download_answers
  (r : option DownloadResponse * error) : Backend unit :=
  mkBackend unit
    (fun s => Some s)
    (fun name key => (Some (mkCredential name key), nil_err))
    (fun _ w => ((None, offline), w))
    (fun _ _ _ w => ((None, offline), w))
    (fun _ _ _ w => (r, w))
    (fun _ w => ((None, offline), w))
    (fun _ _ w => ((None, offline), w))
    (fun _ _ w => ((None, offline), w)).

(** The in-memory backend with a [url.Parse] that refuses an address
    with a space in it, and a credential constructor that refuses a key
    with an exclamation mark in it, which is no base64. *)
Definition strict_parse (address : string) : option URL :=
  match String.index 0 " " address with
  | Some _ => None
  | None => Some address
  end.

Definition bad_key : error := errorString "illegal base64 data".

Definition strict_credential (name key : string)
  : option SharedKeyCredential * error :=
  match String.index 0 "!" key with
  | Some _ => (None, bad_key)
  | None => (Some (mkCredential name key), nil_err)
  end.

Definition strict : Backend Mem.World :=
  mkBackend Mem.World strict_parse strict_credential
    Mem.Create Mem.Upload Mem.Download Mem.GetProperties Mem.Delete
    Mem.ListBlobsFlatSegment.

(** A download answered without an error whose body breaks off after
    three of its five bytes. *)
Definition broken_stream : Backend unit :=
  download_answers
    (Some (mkDownloadResponse (Mem.ok 200 "200 OK") (take 3 Mem.hello)
             Mem.connection_reset), nil_err).

(** ** Vocabulary of the properties *)

(** What a call leaves behind: the new world and one more request. *)
Definition after_call {W} (st : state W) (w' : W) (req : Request) : state W :=
  mkState w' (requests st ++ [req]) (stdout st).

(** The requests a call issued, given the states before and after it. *)
Definition issued {W} (st st' : state W) : list Request :=
  drop (length (requests st)) (requests st').


(** The fetches the wait group is still counting. *)
Definition waiting_for (fs : list Azure.fetch) : nat :=
  sum_list_with (fun f => if Azure.in_flight f then 1 else 0) fs.



Section Entries.
Context (NewKey : string -> Key) (stored : Key -> GoBytes * error).

(** The result a listed blob starts with, and the entry it ends as when
    [stored] tells what a [Get] of each key gives. *)
Definition blank (blob : BlobItem) : Azure.Result :=
  Azure.mkResult (Key_String (NewKey (Name blob))) None
    (int_of_int64 (default 0%Z (Properties_ContentLength blob))) nil_err.



End Entries.

(** States the goroutines of a query can reach. *)
Definition reachable {W} (B : Backend W) (NewKey : string -> Key)
  (d : Azure.datastore) (q : Azure.Query_spec) (st : state W)
  (s : Azure.qstate) : Prop :=
  exists cs, Azure.run B NewKey d q cs (Azure.Query d q st) = Some s.

(** The wait group counts the fetches that are not over, and the lister
    is past [wg.Wait()] only when none is left. *)
Definition wg_counts {W} (s : Azure.qstate (W := W)) : Prop :=
  Azure.q_wg s = Z.of_nat (waiting_for (Azure.q_fetches s))
  /\ (Azure.q_lister s = Azure.AtClose \/ Azure.q_lister s = Azure.Returned ->
      Azure.q_wg s = 0%Z).

(** The channel was closed at most once, and while no listing error was
    logged only by the lister's last statement. *)
Definition closed_once {W} (s : Azure.qstate (W := W)) : Prop :=
  Azure.q_closes s = (if Azure.q_closed s then 1 else 0)
  /\ (Azure.q_log s = [] -> Azure.q_closed s = true ->
      Azure.q_lister s = Azure.Returned).

Section Environment.
Context {W : Type} (B : Backend W) (NewKey : string -> Key).
Context (d : Azure.datastore) (P : W -> Prop) (stored : Key -> GoBytes * error).

Definition has_length (blob : BlobItem) : Prop :=
  is_Some (Properties_ContentLength blob).

(** While the world satisfies [P], every listing request succeeds, with
    a content length on every item, and leaves the world in [P]. *)
Definition healthy_listing : Prop :=
  forall m w, P w ->
    exists l w',
      be_ListBlobsFlatSegment B (Azure.containerUrl d) m w = ((Some l, nil_err), w')
      /\ P w' /\ Forall has_length (Segment_BlobItems l).

(** While the world satisfies [P], a [Get] of key [k] returns
    [stored k], a value or a failure, and leaves the world in [P]. *)
Definition stable_store : Prop :=
  forall k st, P (world st) ->
    exists st', Azure.Get B d k st = (Done (stored k), st') /\ P (world st').

Definition lister_sound (l : Azure.lister) : Prop :=
  match l with
  | Azure.AfterList l err =>
      err = nil_err
      /\ exists l', l = Some l' /\ Forall has_length (Segment_BlobItems l')
  | Azure.AtRange l =>
      exists l', l = Some l' /\ Forall has_length (Segment_BlobItems l')
  | Azure.InRange items _ => Forall has_length items
  | _ => True
  end.


End Environment.

(** The backend reports the blob as gone: its properties and its content
    are answered with blob-not-found, a delete of it with that or with
    no error. *)
Definition absent {W} (B : Backend W) (blob : BlockBlobURL) (w : W) : Prop :=
  isError (be_GetProperties B blob w).1.2 ServiceCodeBlobNotFound = true
  /\ isError (be_Download B blob 0 0 w).1.2 ServiceCodeBlobNotFound = true
  /\ ((be_Delete B blob DeleteSnapshotsOptionInclude w).1.2 = nil_err
      \/ isError (be_Delete B blob DeleteSnapshotsOptionInclude w).1.2
           ServiceCodeBlobNotFound = true).

(** The backend forgets what is deleted: after a delete that was
    answered without an error, or with blob-not-found, the blob is
    gone. *)
Definition forgets_deleted {W} (B : Backend W) : Prop :=
  forall blob w,
    (be_Delete B blob DeleteSnapshotsOptionInclude w).1.2 = nil_err
    \/ isError (be_Delete B blob DeleteSnapshotsOptionInclude w).1.2
         ServiceCodeBlobNotFound = true ->
    absent B blob (be_Delete B blob DeleteSnapshotsOptionInclude w).2.

(** An upload to one blob of a container leaves what a download of
    another blob of that container is answered. *)
Definition uploads_are_local {W} (B : Backend W) : Prop :=
  forall c name name' body tier w,
    name <> name' ->
    (be_Download B (mkBlockBlobURL c name') 0 0
       (be_Upload B (mkBlockBlobURL c name) body tier w).2).1
    = (be_Download B (mkBlockBlobURL c name') 0 0 w).1.

(** The requests a query may issue: a listing of the datastore's
    container, or a download in full of the blob that the key made from
    a listed name stands for. *)
Definition query_request (NewKey : string -> Key) (d : Azure.datastore)
  (seen : list BlobItem) (r : Request) : Prop :=
  (exists m, r = ReqListBlobsFlatSegment (Azure.containerUrl d) m)
  \/ (exists blob, blob ∈ seen
       /\ r = ReqDownload (Azure.keyUrl d (NewKey (Name blob))) 0 0).

(** The fetches launched are those of the listed blobs when values are
    asked for, none otherwise; every request sent since the query began
    in [st0] is one a query may issue, a listing only when no fetch was
    launched. *)
Definition reads_only {W} (NewKey : string -> Key) (d : Azure.datastore)
  (q : Azure.Query_spec) (st0 : state W) (s : Azure.qstate (W := W)) : Prop :=
  Azure.f_key <$> Azure.q_fetches s
    = (if Azure.KeysOnly q then []
       else (fun blob => NewKey (Name blob)) <$> Azure.q_listed s)
  /\ exists sent,
      requests (Azure.q_state s) = requests st0 ++ sent
      /\ Forall (query_request NewKey d (Azure.q_listed s)) sent
      /\ (Azure.KeysOnly q = true ->
          Forall (fun r => exists m,
                    r = ReqListBlobsFlatSegment (Azure.containerUrl d) m) sent).

(** What holds of a keys-only query while listing is healthy. *)
Definition keys_only {W} (NewKey : string -> Key) (P : W -> Prop)
  (s : Azure.qstate (W := W)) : Prop :=
  Azure.q_panic s = None
  /\ P (world (Azure.q_state s))
  /\ lister_sound (Azure.q_lister s)
  /\ (Azure.q_closed s = true -> Azure.q_lister s = Azure.Returned)
  /\ Azure.q_fetches s = []
  /\ Azure.q_wg s = 0%Z
  /\ Azure.q_results s = blank NewKey <$> Azure.q_listed s.

(** What the backend serves from marker [m] on, page after page, when
    it answers the listing for a marker [m'] with [page m']; [None] when
    [fuel] pages do not reach the last one. *)
Fixpoint walk (page : Marker -> ListBlobsFlatSegmentResponse) (fuel : nat)
  (m : Marker) : option (list BlobItem) :=
  match fuel with
  | O => None
  | S n =>
      if NotDone m then
        app (Segment_BlobItems (page m)) <$> walk page n (NextMarker (page m))
      else Some []
  end.

(** The blobs of the backend's listing that the lister has yet to go
    through. *)
Definition left_to_list (page : Marker -> ListBlobsFlatSegmentResponse)
  (l : Azure.lister) (rest : list BlobItem) : Prop :=
  match l with
  | Azure.AtLoop m => exists n, walk page n m = Some rest
  | Azure.AfterList (Some l') _ | Azure.AtRange (Some l') =>
      exists n tail,
        walk page n (NextMarker l') = Some tail
        /\ rest = Segment_BlobItems l' ++ tail
  | Azure.InRange items l' =>
      exists n tail,
        walk page n (NextMarker l') = Some tail /\ rest = items ++ tail
  | Azure.AfterList None _ | Azure.AtRange None => False
  | Azure.AtWait | Azure.AtClose | Azure.Returned => rest = []
  end.

(** The blobs gone through and those left make up [total], the whole
    listing of the backend. *)
Definition follows_listing {W} (page : Marker -> ListBlobsFlatSegmentResponse)
  (total : list BlobItem) (s : Azure.qstate (W := W)) : Prop :=
  exists rest,
    left_to_list page (Azure.q_lister s) rest
    /\ Azure.q_listed s ++ rest = total.

Section Served.
Context {W : Type} (B : Backend W) (NewKey : string -> Key).
Context (d : Azure.datastore) (P : W -> Prop).

(** While the world satisfies [P], the listing of the datastore's
    container for marker [m] is answered with [page m] and no error,
    every item with its content length, and the world stays in [P]. *)
Definition pages_served (page : Marker -> ListBlobsFlatSegmentResponse) : Prop :=
  (forall m w, P w ->
     exists w',
       be_ListBlobsFlatSegment B (Azure.containerUrl d) m w
         = ((Some (page m), nil_err), w')
       /\ P w')
  /\ forall m, Forall has_length (Segment_BlobItems (page m)).




End Served.

(** How the in-memory backend answers a listing and a download in a
    world that stays what it is. *)
Definition listing_page (w : Mem.World) (m : Marker)
  : ListBlobsFlatSegmentResponse :=
  default (mkListResponse [] (Some ""))
    (Mem.ListBlobsFlatSegment Mem.the_container m w).1.1.


(** A keys-only query run to the end over two pages. *)
Definition for_keys : Azure.Query_spec := Azure.mkQuery true.

Definition keys_outcome (w : Mem.World) : Azure.qstate :=
  default (Azure.Query Mem.store for_keys (Mem.fresh w))
    (Azure.run Mem.backend Mem.NewKey Mem.store for_keys
       (replicate 13 Azure.Lister)
       (Azure.Query Mem.store for_keys (Mem.fresh w))).

(** Three blobs listed two per page: [/a/c], which cannot be read, and
    [/a/b] on the first page; the request for the second page fails.
    The schedule: the lister through the first page, the fetch of
    [/a/c] to its end, the lister through the failed request and its
    close, then the fetch of [/a/b]. *)
Definition three_blobs : gmap string (list byte) :=
  <["/a/d" := Mem.hello]> Mem.two_blobs.

Definition lossy : Mem.World :=
  Mem.mkWorld true three_blobs
    (<["/a/c" := Mem.connection_reset]> ∅)
    (<["/a/b" := Mem.connection_reset]> ∅) 1.

Definition losing_schedule : list Azure.choice :=
  replicate 6 Azure.Lister ++ replicate 3 (Azure.Fetch 0)
    ++ replicate 2 Azure.Lister ++ replicate 2 (Azure.Fetch 1).

(** * Properties *)

(** ** Errors and conversions *)

Lemma isError_nil (e : ServiceCodeType) : isError nil_err e = false.
Proof. reflexivity. Qed.

Lemma isError_ErrNotFound (e : ServiceCodeType) : isError ErrNotFound e = false.
Proof. reflexivity. Qed.

Lemma isError_not_nil (err : error) (e : ServiceCodeType) :
  isError err e = true -> is_nil err = false.
Proof. destruct err; cbn; intros; congruence. Qed.

Lemma is_nil_false (err : error) : err <> nil_err -> is_nil err = false.
Proof. destruct err; simpl; congruence. Qed.

Lemma is_nil_true (err : error) : is_nil err = true -> err = nil_err.
Proof. destruct err; simpl; congruence. Qed.

Lemma isError_StorageError (c e : ServiceCodeType) (detail : string) :
  isError (StorageError c detail) e = bool_decide (c = e).
Proof. reflexivity. Qed.

Lemma isError_wrapError (msg : string) (cause : error) (e : ServiceCodeType) :
  isError (wrapError msg cause) e = isError cause e.
Proof. reflexivity. Qed.

Lemma int_of_int64_id (x : Z) : int64_range x -> int_of_int64 x = x.
Proof.
  unfold int64_range, int_of_int64, wrap_signed, int_bits. intros Hx.
  change (2 ^ (64 - 1))%Z with (2 ^ 63)%Z.
  rewrite Z.mod_small; lia.
Qed.

Ltac run_call H :=
  unfold mbind, M_bind, mret, M_ret, Download, GetProperties, Upload,
    Delete_blob, Create, ListBlobsFlatSegment, call, deref, Println, after_call;
  simpl; rewrite ?H; simpl.

(** ** Get *)

Section GetFacts.
Context {W : Type} (B : Backend W).

Lemma Get_not_found (d : Azure.datastore) (key : Key) (st : state W) get err w' :
  be_Download B (Azure.keyUrl d key) 0 0 (world st) = ((get, err), w') ->
  isError err ServiceCodeBlobNotFound = true ->
  Azure.Get B d key st =
    (Done (None, ErrNotFound),
     after_call st w' (ReqDownload (Azure.keyUrl d key) 0 0)).
Proof.
  intros H Hnf. unfold Azure.Get. run_call H.
  rewrite (isError_not_nil _ _ Hnf). simpl. now rewrite Hnf.
Qed.

Lemma Get_other_error (d : Azure.datastore) (key : Key) (st : state W) get err w' :
  be_Download B (Azure.keyUrl d key) 0 0 (world st) = ((get, err), w') ->
  err <> nil_err ->
  isError err ServiceCodeBlobNotFound = false ->
  Azure.Get B d key st =
    (Done (None, err), after_call st w' (ReqDownload (Azure.keyUrl d key) 0 0)).
Proof.
  intros H Hnn Hnf. unfold Azure.Get. run_call H.
  rewrite (is_nil_false _ Hnn). simpl. now rewrite Hnf.
Qed.

Lemma Get_success (d : Azure.datastore) (key : Key) (st : state W) r w' :
  be_Download B (Azure.keyUrl d key) 0 0 (world st) = ((Some r, nil_err), w') ->
  Azure.Get B d key st =
    (Done (Some (dr_body r), nil_err),
     after_call st w' (ReqDownload (Azure.keyUrl d key) 0 0)).
Proof. intros H. unfold Azure.Get. now run_call H. Qed.

Lemma Draft_Get_error (d : AzureDraft.datastore) (key : Key) (st : state W)
  get err w' :
  be_Download B (AzureDraft.keyUrl d key) 0 0 (world st) = ((get, err), w') ->
  err <> nil_err ->
  AzureDraft.Get B d key st =
    (Done (None, err),
     after_call st w' (ReqDownload (AzureDraft.keyUrl d key) 0 0)).
Proof.
  intros H Hnn. unfold AzureDraft.Get. run_call H.
  now rewrite (is_nil_false _ Hnn).
Qed.

End GetFacts.

(** ** GetSize *)

Section GetSizeFacts.
Context {W : Type} (B : Backend W).

Lemma GetSize_not_found (d : Azure.datastore) (key : Key) (st : state W)
  prop err w' :
  be_GetProperties B (Azure.keyUrl d key) (world st) = ((prop, err), w') ->
  isError err ServiceCodeBlobNotFound = true ->
  Azure.GetSize B d key st =
    (Done ((-1)%Z, ErrNotFound),
     after_call st w' (ReqGetProperties (Azure.keyUrl d key))).
Proof.
  intros H Hnf. unfold Azure.GetSize. run_call H.
  rewrite (isError_not_nil _ _ Hnf). simpl. now rewrite Hnf.
Qed.

Lemma GetSize_other_error (d : Azure.datastore) (key : Key) (st : state W)
  prop err w' :
  be_GetProperties B (Azure.keyUrl d key) (world st) = ((prop, err), w') ->
  err <> nil_err ->
  isError err ServiceCodeBlobNotFound = false ->
  Azure.GetSize B d key st =
    (Done (0%Z, err), after_call st w' (ReqGetProperties (Azure.keyUrl d key))).
Proof.
  intros H Hnn Hnf. unfold Azure.GetSize. run_call H.
  rewrite (is_nil_false _ Hnn). simpl. now rewrite Hnf.
Qed.

Lemma GetSize_success (d : Azure.datastore) (key : Key) (st : state W) p w' :
  be_GetProperties B (Azure.keyUrl d key) (world st) = ((Some p, nil_err), w') ->
  Azure.GetSize B d key st =
    (Done (int_of_int64 (gp_ContentLength p), nil_err),
     mkState w' (requests st ++ [ReqGetProperties (Azure.keyUrl d key)])
             (stdout st ++ [rs_Status (gp_status p)])).
Proof. intros H. unfold Azure.GetSize. now run_call H. Qed.

End GetSizeFacts.

(** The error policy of the current [Get] and [GetSize] (lines 242-258
    and 274-287): blob-not-found becomes [ErrNotFound] with a nil value
    (size -1), any other backend error comes back as it is. *)
Theorem Get_error_policy {W} (B : Backend W) (d : Azure.datastore) (key : Key)
  (st : state W) get err w' :
  be_Download B (Azure.keyUrl d key) 0 0 (world st) = ((get, err), w') ->
  err <> nil_err ->
  (Azure.Get B d key st).1 =
    Done (None, if isError err ServiceCodeBlobNotFound then ErrNotFound else err).
Proof.
  intros H Hnn. destruct (isError err ServiceCodeBlobNotFound) eqn:Hnf.
  - now rewrite (Get_not_found B d key st get err w' H Hnf).
  - now rewrite (Get_other_error B d key st get err w' H Hnn Hnf).
Qed.

(** The draft [Get] (lines 438-451) hands any backend error back as it
    is, blob-not-found included. *)
Lemma Draft_Get_never_translates {W} (B : Backend W) (d : AzureDraft.datastore)
  (key : Key) (st : state W) get err w' :
  be_Download B (AzureDraft.keyUrl d key) 0 0 (world st) = ((get, err), w') ->
  isError err ServiceCodeBlobNotFound = true ->
  (AzureDraft.Get B d key st).1 = Done (None, err) /\ err <> ErrNotFound.
Proof.
  intros H Hnf. split.
  - rewrite (Draft_Get_error B d key st get err w' H); [reflexivity |].
    intros ->. discriminate Hnf.
  - intros ->. discriminate Hnf.
Qed.

(** C1, at lines 438-451: a [Get] of a key with no blob, on an empty
    container.  The draft revision returns the backend's storage error
    (a blob-not-found one, which is not [ErrNotFound]); the current
    revision returns [ErrNotFound] from [Get] and from [GetSize] on the
    same input. *)
Theorem Draft_Get_surfaces_blob_not_found :
  (AzureDraft.Get Mem.backend Mem.draft_store (mkKey "/a") (Mem.fresh Mem.empty)).1
    = Done (None, Mem.not_found)
  /\ isError Mem.not_found ServiceCodeBlobNotFound = true
  /\ Mem.not_found <> ErrNotFound
  /\ (Azure.Get Mem.backend Mem.store (mkKey "/a") (Mem.fresh Mem.empty)).1
       = Done (None, ErrNotFound)
  /\ (Azure.GetSize Mem.backend Mem.store (mkKey "/a") (Mem.fresh Mem.empty)).1
       = Done ((-1)%Z, ErrNotFound).
Proof. repeat split; try reflexivity. discriminate. Qed.

(** ** Delete *)

(** The current [Delete] (lines 290-300): nil when the backend delete
    succeeds or reports blob-not-found, any other error as it is. *)
Theorem Delete_error_policy {W} (B : Backend W) (d : Azure.datastore) (key : Key)
  (st : state W) del err w' :
  be_Delete B (Azure.keyUrl d key) DeleteSnapshotsOptionInclude (world st)
    = ((del, err), w') ->
  (Azure.Delete B d key st).1 =
    Done (if isError err ServiceCodeBlobNotFound then nil_err else err).
Proof.
  intros H. unfold Azure.Delete. run_call H.
  now destruct (isError err ServiceCodeBlobNotFound).
Qed.

(** The draft [Delete] (lines 479-486) prints the status of the response
    it was handed and returns the backend's error as it is. *)
Lemma Draft_Delete_never_succeeds_on_not_found {W} (B : Backend W)
  (d : AzureDraft.datastore) (key : Key) (st : state W) del err w' :
  be_Delete B (AzureDraft.keyUrl d key) DeleteSnapshotsOptionInclude (world st)
    = ((del, err), w') ->
  isError err ServiceCodeBlobNotFound = true ->
  (AzureDraft.Delete B d key st).1 =
    match del with
    | Some _ => Done err
    | None => Panic nil_dereference
    end
  /\ (AzureDraft.Delete B d key st).1 <> Done nil_err.
Proof.
  intros H Hnf. unfold AzureDraft.Delete. run_call H.
  destruct del; simpl; split; try reflexivity; try discriminate.
  intros [= ->]. discriminate Hnf.
Qed.

(** C3, at lines 479-486: a [Delete] of a key with no blob, on an empty
    container.  The backend answers blob-not-found with no response; the
    draft revision dereferences the missing response and panics, and when
    a response comes with the error it returns that error: in neither
    case nil.  The current revision returns nil on the same input. *)
Theorem Draft_Delete_surfaces_blob_not_found :
  (AzureDraft.Delete Mem.backend Mem.draft_store (mkKey "/a") (Mem.fresh Mem.empty)).1
    = Panic nil_dereference
  /\ (forall resp,
        (AzureDraft.Delete (delete_answers (Some resp, Mem.not_found))
           Mem.draft_store (mkKey "/a") (mkState tt [] [])).1
        = Done Mem.not_found)
  /\ (Azure.Delete Mem.backend Mem.store (mkKey "/a") (Mem.fresh Mem.empty)).1
       = Done nil_err.
Proof. repeat split; reflexivity. Qed.

(** ** Has *)

(** C6: [Has] sends one request, a [GetProperties] of the key's blob, and
    nothing that transfers content; it answers (false, nil) on
    blob-not-found, (true, nil) when the request succeeds, and
    (false, err) with any other backend error [err] unchanged. *)
Theorem Has_metadata_only {W} (B : Backend W) (d : Azure.datastore) (key : Key)
  (st : state W) prop err w' :
  be_GetProperties B (Azure.keyUrl d key) (world st) = ((prop, err), w') ->
  exists r st',
    Azure.Has B d key st = (Done r, st')
    /\ issued st st' = [ReqGetProperties (Azure.keyUrl d key)]
    /\ existsb fetches_content (issued st st') = false
    /\ forallb metadata_only (issued st st') = true
    /\ (isError err ServiceCodeBlobNotFound = true -> r = (false, nil_err))
    /\ (err = nil_err -> r = (true, nil_err))
    /\ (err <> nil_err -> isError err ServiceCodeBlobNotFound = false ->
        r = (false, err)).
Proof.
  intros H. unfold Azure.Has. run_call H.
  assert (Hiss : issued st
            (mkState w' (requests st ++ [ReqGetProperties (Azure.keyUrl d key)])
                     (stdout st))
          = [ReqGetProperties (Azure.keyUrl d key)]).
  { unfold issued. simpl. now rewrite drop_app_length. }
  destruct (is_nil err) eqn:Hn; simpl.
  - apply is_nil_true in Hn. subst err.
    eexists _, _. split; [reflexivity |]. rewrite Hiss.
    repeat split; try reflexivity; try congruence.
    rewrite isError_nil. discriminate.
  - destruct (isError err ServiceCodeBlobNotFound) eqn:Hnf;
      (eexists _, _; split; [reflexivity |]; rewrite Hiss;
       repeat split; try reflexivity; try congruence).
    + intros ->. discriminate Hn.
    + intros ->. discriminate Hn.
Qed.

Lemma Has_metadata_only_witness :
  (exists r st',
     Azure.Has Mem.backend Mem.store (mkKey "/a/b") (Mem.fresh Mem.sample)
       = (Done r, st') /\ r = (true, nil_err))
  /\ (exists r st',
        Azure.Has Mem.backend Mem.store (mkKey "/a/x") (Mem.fresh Mem.sample)
          = (Done r, st') /\ r = (false, nil_err))
  /\ (exists r st',
        Azure.Has Mem.backend Mem.store (mkKey "/a/c")
          (Mem.fresh Mem.unreachable_blob) = (Done r, st')
        /\ r = (false, Mem.connection_reset)).
Proof.
  split; [| split].
  - destruct (Has_metadata_only Mem.backend Mem.store (mkKey "/a/b")
                (Mem.fresh Mem.sample) _ _ _ eq_refl)
      as (r & st' & Hrun & _ & _ & _ & _ & Hok & _).
    exists r, st'. split; [exact Hrun | apply Hok; reflexivity].
  - destruct (Has_metadata_only Mem.backend Mem.store (mkKey "/a/x")
                (Mem.fresh Mem.sample) _ _ _ eq_refl)
      as (r & st' & Hrun & _ & _ & _ & Hnf & _).
    exists r, st'. split; [exact Hrun | apply Hnf; reflexivity].
  - destruct (Has_metadata_only Mem.backend Mem.store (mkKey "/a/c")
                (Mem.fresh Mem.unreachable_blob) _ _ _ eq_refl)
      as (r & st' & Hrun & _ & _ & _ & _ & _ & Hother).
    exists r, st'. split; [exact Hrun |].
    apply Hother; [discriminate | reflexivity].
Defined.

(** ** GetSize *)

(** C7: for a key whose blob exists, [GetSize] sends one request, a
    [GetProperties] of the key's blob, nothing that transfers content,
    and returns the content length the backend reported; for an absent
    key it returns [ErrNotFound], as [Get] does when the download
    reports blob-not-found. *)
Theorem GetSize_content_length {W} (B : Backend W) (d : Azure.datastore)
  (key : Key) (st : state W) prop err w' :
  be_GetProperties B (Azure.keyUrl d key) (world st) = ((prop, err), w') ->
  issued st (Azure.GetSize B d key st).2 = [ReqGetProperties (Azure.keyUrl d key)]
  /\ existsb fetches_content (issued st (Azure.GetSize B d key st).2) = false
  /\ (forall p, prop = Some p -> err = nil_err ->
      int64_range (gp_ContentLength p) ->
      (Azure.GetSize B d key st).1 = Done (gp_ContentLength p, nil_err))
  /\ (isError err ServiceCodeBlobNotFound = true ->
      (exists size, (Azure.GetSize B d key st).1 = Done (size, ErrNotFound))
      /\ forall get err' w'',
          be_Download B (Azure.keyUrl d key) 0 0 (world st) = ((get, err'), w'') ->
          isError err' ServiceCodeBlobNotFound = true ->
          (Azure.Get B d key st).1 = Done (None, ErrNotFound)).
Proof.
  intros H.
  assert (Hiss : forall out,
            issued st (mkState w'
              (requests st ++ [ReqGetProperties (Azure.keyUrl d key)]) out)
            = [ReqGetProperties (Azure.keyUrl d key)]).
  { intros out. unfold issued. simpl. now rewrite drop_app_length. }
  assert (Hreq : issued st (Azure.GetSize B d key st).2
                 = [ReqGetProperties (Azure.keyUrl d key)]).
  { unfold Azure.GetSize. run_call H.
    destruct (is_nil err); simpl.
    - destruct prop; simpl; apply Hiss.
    - destruct (isError err ServiceCodeBlobNotFound); simpl; apply Hiss. }
  split; [exact Hreq |]. split; [now rewrite Hreq |]. split.
  - intros p -> -> Hrange.
    rewrite (GetSize_success B d key st p w' H). simpl.
    now rewrite int_of_int64_id.
  - intros Hnf. split.
    + exists (-1)%Z. now rewrite (GetSize_not_found B d key st prop err w' H Hnf).
    + intros get err' w'' Hd Hnf'.
      now rewrite (Get_not_found B d key st get err' w'' Hd Hnf').
Qed.

Lemma GetSize_content_length_witness :
  (Azure.GetSize Mem.backend Mem.store (mkKey "/a/b") (Mem.fresh Mem.sample)).1
    = Done (5%Z, nil_err)
  /\ (exists size,
        (Azure.GetSize Mem.backend Mem.store (mkKey "/a/x")
           (Mem.fresh Mem.sample)).1 = Done (size, ErrNotFound)).
Proof.
  split.
  - refine (proj1 (proj2 (proj2
      (GetSize_content_length Mem.backend Mem.store (mkKey "/a/b")
         (Mem.fresh Mem.sample) _ _ _ eq_refl))) _ eq_refl eq_refl _).
    unfold int64_range. simpl. lia.
  - exact (proj1 (proj2 (proj2 (proj2
      (GetSize_content_length Mem.backend Mem.store (mkKey "/a/x")
         (Mem.fresh Mem.sample) _ _ _ eq_refl))) eq_refl)).
Defined.

(** C10: on blob-not-found [GetSize] returns size -1 with [ErrNotFound];
    on any other backend error it returns size 0 with that error.  The
    error returned is then never nil, and the size is one of the two
    constants whatever the blob holds. *)
Theorem GetSize_error_sizes {W} (B : Backend W) (d : Azure.datastore)
  (key : Key) (st : state W) prop err w' :
  be_GetProperties B (Azure.keyUrl d key) (world st) = ((prop, err), w') ->
  err <> nil_err ->
  (isError err ServiceCodeBlobNotFound = true ->
   (Azure.GetSize B d key st).1 = Done ((-1)%Z, ErrNotFound))
  /\ (isError err ServiceCodeBlobNotFound = false ->
      (Azure.GetSize B d key st).1 = Done (0%Z, err))
  /\ (exists size e,
        (Azure.GetSize B d key st).1 = Done (size, e)
        /\ e <> nil_err /\ (size = (-1)%Z \/ size = 0%Z)).
Proof.
  intros H Hnn. split; [| split].
  - intros Hnf. now rewrite (GetSize_not_found B d key st prop err w' H Hnf).
  - intros Hnf. now rewrite (GetSize_other_error B d key st prop err w' H Hnn Hnf).
  - destruct (isError err ServiceCodeBlobNotFound) eqn:Hnf.
    + exists (-1)%Z, ErrNotFound.
      rewrite (GetSize_not_found B d key st prop err w' H Hnf).
      repeat split; [discriminate | now left].
    + exists 0%Z, err.
      rewrite (GetSize_other_error B d key st prop err w' H Hnn Hnf).
      repeat split; [exact Hnn | now right].
Qed.

Lemma GetSize_error_sizes_witness :
  (Azure.GetSize Mem.backend Mem.store (mkKey "/a/x") (Mem.fresh Mem.sample)).1
    = Done ((-1)%Z, ErrNotFound)
  /\ (Azure.GetSize Mem.backend Mem.store (mkKey "/a/c")
        (Mem.fresh Mem.unreachable_blob)).1
      = Done (0%Z, Mem.connection_reset).
Proof.
  split.
  - refine (proj1 (GetSize_error_sizes Mem.backend Mem.store (mkKey "/a/x")
                     (Mem.fresh Mem.sample) _ _ _ eq_refl _) eq_refl).
    discriminate.
  - refine (proj1 (proj2 (GetSize_error_sizes Mem.backend Mem.store
                     (mkKey "/a/c") (Mem.fresh Mem.unreachable_blob)
                     _ _ _ eq_refl _)) eq_refl).
    discriminate.
Defined.

(** ** DiskUsage *)

(** [DiskUsage] (lines 357-360) sends no request and returns 100 with a
    nil error on every store. *)
Lemma DiskUsage_constant {W} (B : Backend W) (d : Azure.datastore) (st : state W) :
  Azure.DiskUsage (W := W) d st = (Done (100%Z, nil_err), st).
Proof. reflexivity. Qed.

(** C8, at lines 357-360: [DiskUsage] returns the byte count 100 with a
    nil error, for an empty container as for one holding ten bytes; no
    error says that the figure is not a measurement. *)
Theorem DiskUsage_fabricated_count :
  (Azure.DiskUsage Mem.store (Mem.fresh Mem.empty)).1 = Done (100%Z, nil_err)
  /\ (Azure.DiskUsage Mem.store (Mem.fresh Mem.sample)).1 = Done (100%Z, nil_err)
  /\ map_fold (fun _ body n => (n + length body)%nat) 0%nat (Mem.blobs Mem.empty)
       = 0%nat
  /\ map_fold (fun _ body n => (n + length body)%nat) 0%nat (Mem.blobs Mem.sample)
       = 10%nat.
Proof. repeat split; vm_compute; reflexivity. Qed.

(** ** NewDatastore *)

(** C9: once the credential is made, a container creation that fails with
    container-already-exists still yields the adapter for that container
    and a nil error; a creation that fails with any other error yields
    that error and no adapter.  (A creation that succeeds yields the
    adapter as well.) *)
Theorem NewDatastore_container_creation {W} (B : Backend W)
  (accountName accountKey container : string) (st : state W)
  u credential create err w' :
  be_url_Parse B (container_address accountName container) = Some u ->
  be_NewSharedKeyCredential B accountName accountKey = (credential, nil_err) ->
  be_Create B (mkContainerURL u credential) (world st) = ((create, err), w') ->
  (isError err ServiceCodeContainerAlreadyExists = true ->
   (Azure.NewDatastore B accountName accountKey container st).1 =
     Done (Some (Azure.mkDatastore (mkContainerURL u credential) None), nil_err))
  /\ (err <> nil_err ->
      isError err ServiceCodeContainerAlreadyExists = false ->
      (Azure.NewDatastore B accountName accountKey container st).1 =
        Done (None, err))
  /\ (err = nil_err ->
      (Azure.NewDatastore B accountName accountKey container st).1 =
        Done (Some (Azure.mkDatastore (mkContainerURL u credential) None), nil_err)).
Proof.
  intros Hu Hc Hcreate. unfold Azure.NewDatastore. rewrite Hu, Hc. simpl.
  run_call Hcreate. split; [| split].
  - intros Hex. rewrite (isError_not_nil _ _ Hex). simpl. now rewrite Hex.
  - intros Hnn Hex. rewrite (is_nil_false _ Hnn). simpl. now rewrite Hex.
  - now intros ->.
Qed.

Lemma NewDatastore_container_creation_witness :
  (exists d,
     (Azure.NewDatastore Mem.backend "account" "a2V5" "data" (Mem.fresh Mem.empty)).1
       = Done (Some d, nil_err))
  /\ (Azure.NewDatastore (delete_answers (None, nil_err)) "account" "a2V5" "data"
        (mkState tt [] [])).1 = Done (None, offline).
Proof.
  split.
  - eexists.
    exact (proj1 (NewDatastore_container_creation Mem.backend "account" "a2V5"
                    "data" (Mem.fresh Mem.empty) _ _ _ _ _
                    eq_refl eq_refl eq_refl) eq_refl).
  - refine (proj1 (proj2 (NewDatastore_container_creation
                    (delete_answers (None, nil_err)) "account" "a2V5"
                    "data" (mkState tt [] []) _ _ _ _ _
                    eq_refl eq_refl eq_refl)) _ eq_refl).
    discriminate.
Defined.

(** ** Put followed by Get *)


Lemma Put_result {W} (B : Backend W) (d : Azure.datastore) (key : Key)
  (value : GoBytes) (st : state W) up err w1 :
  be_Upload B (Azure.keyUrl d key) (bytes_content value) AccessTierNone (world st)
    = ((up, err), w1) ->
  Azure.Put B d key value st =
    (Done err,
     after_call st w1
       (ReqUpload (Azure.keyUrl d key) (bytes_content value) AccessTierNone)).
Proof. intros H. unfold Azure.Put. now run_call H. Qed.



(** ** Query: the wait group and the channel *)

Section QueryFacts.
Context {W : Type} (B : Backend W) (NewKey : string -> Key).
Context (d : Azure.datastore) (q : Azure.Query_spec).

Abbreviation step := (Azure.step B NewKey d q).
Abbreviation run := (Azure.run B NewKey d q).

Lemma run_invariant (I : Azure.qstate (W := W) -> Prop) :
  (forall c s s', I s -> step c s = Some s' -> I s') ->
  forall cs s s', I s -> run cs s = Some s' -> I s'.
Proof.
  intros Hstep cs. induction cs as [| c cs IH]; intros s s' HI Hrun; simpl in Hrun.
  - now injection Hrun as <-.
  - destruct (step c s) as [s1 |] eqn:Hs; [| discriminate].
    exact (IH s1 s' (Hstep c s s1 HI Hs) Hrun).
Qed.

Lemma waiting_for_snoc (fs : list Azure.fetch) (f : Azure.fetch) :
  waiting_for (fs ++ [f]) =
    (waiting_for fs + if Azure.in_flight f then 1 else 0)%nat.
Proof. unfold waiting_for. rewrite sum_list_with_app. simpl. lia. Qed.

Lemma waiting_for_insert (fs : list Azure.fetch) (i : nat) (f f' : Azure.fetch) :
  fs !! i = Some f ->
  (waiting_for (<[i := f']> fs) + (if Azure.in_flight f then 1 else 0)
   = waiting_for fs + (if Azure.in_flight f' then 1 else 0))%nat.
Proof.
  intros Hi. rewrite insert_take_drop by (eapply lookup_lt_Some; eauto).
  rewrite <- (take_drop_middle fs i f Hi) at 3.
  unfold waiting_for. rewrite !sum_list_with_app. simpl. lia.
Qed.

Lemma waiting_for_zero (fs : list Azure.fetch) (i : nat) (f : Azure.fetch) :
  waiting_for fs = 0%nat -> fs !! i = Some f -> Azure.in_flight f = false.
Proof.
  intros Hz Hi.
  pose proof (sum_list_with_in f (fun f => if Azure.in_flight f then 1 else 0)
                fs (list_elem_of_lookup_2 _ _ _ Hi)) as Hle.
  unfold waiting_for in Hz. cbv beta in Hle.
  destruct (Azure.in_flight f); [lia | reflexivity].
Qed.

Lemma wg_counts_step c s s' : wg_counts s -> step c s = Some s' -> wg_counts s'.
Proof.
  unfold wg_counts, Azure.step.
  destruct s as [lst fs wg closed closes results seen log st pan]; simpl.
  intros [Hwg Hpast].
  destruct pan; [discriminate |]. destruct c as [| i].
  - unfold Azure.step_lister; simpl.
    destruct lst as [m | l err | l | items l | | |].
    + destruct (NotDone m).
      * destruct (ListBlobsFlatSegment B (Azure.containerUrl d) m st)
          as [[[l err] | msg] st']; intros [= <-]; simpl;
          (split; [exact Hwg | intros [? | ?]; discriminate]).
      * intros [= <-]; simpl. split; [exact Hwg | intros [? | ?]; discriminate].
    + destruct (negb (is_nil err)); intros [= <-]; simpl.
      * unfold Azure.close_results. simpl.
        destruct closed; simpl;
          (split; [exact Hwg | intros [? | ?]; discriminate]).
      * split; [exact Hwg | intros [? | ?]; discriminate].
    + destruct l; intros [= <-]; simpl;
        (split; [exact Hwg | intros [? | ?]; discriminate]).
    + destruct items as [| blob rest].
      * intros [= <-]; simpl. split; [exact Hwg | intros [? | ?]; discriminate].
      * destruct (Properties_ContentLength blob);
          [| intros [= <-]; simpl;
             split; [exact Hwg | intros [? | ?]; discriminate]].
        destruct (negb (Azure.KeysOnly q)); intros [= <-].
        -- unfold Azure.wg_Add. simpl.
           destruct (wg + 1 <? 0)%Z; simpl;
             (split; [| intros [? | ?]; discriminate]);
             rewrite waiting_for_snoc; simpl; lia.
        -- unfold Azure.send. simpl.
           destruct closed; simpl;
             (split; [exact Hwg | intros [? | ?]; discriminate]).
    + destruct (wg =? 0)%Z eqn:Hz; [| discriminate].
      intros [= <-]; simpl. split; [exact Hwg | intros _; lia].
    + intros [= <-]. unfold Azure.close_results. simpl.
      destruct closed; simpl;
        (split; [exact Hwg | intros _; apply Hpast; now left]).
    + discriminate.
  - unfold Azure.step_fetch; simpl.
    destruct (fs !! i) as [f |] eqn:Hi; [| discriminate].
    assert (Hnot_past : Azure.in_flight f = true ->
              ~ (lst = Azure.AtClose \/ lst = Azure.Returned)).
    { intros Hfl Hp. specialize (Hpast Hp).
      assert (Hz : waiting_for fs = 0%nat) by lia.
      rewrite (waiting_for_zero _ i f Hz Hi) in Hfl. discriminate. }
    pose proof (waiting_for_insert fs i f) as Hins.
    unfold Azure.in_flight in Hins, Hnot_past.
    destruct (Azure.f_stage f) eqn:Hst.
    + destruct (Azure.Get B d (Azure.f_key f) st)
        as [[[value err] | msg] st']; intros [= <-]; simpl.
      * specialize (Hins (Azure.mkFetch Azure.Sending (Azure.f_key f)
            (Azure.mkResult (Azure.Entry_Key (Azure.f_result f)) value
               (Azure.Entry_Size (Azure.f_result f)) err)) Hi). simpl in Hins.
        split; [lia | intros Hp; now apply Hnot_past in Hp].
      * split; [exact Hwg | exact Hpast].
    + unfold Azure.send; simpl. destruct closed; intros [= <-]; simpl.
      * split; [exact Hwg | exact Hpast].
      * specialize (Hins (Azure.mkFetch Azure.Deferred (Azure.f_key f)
                            (Azure.f_result f)) Hi). simpl in Hins.
        split; [lia | intros Hp; now apply Hnot_past in Hp].
    + intros [= <-]. unfold Azure.wg_Add. simpl.
      specialize (Hins (Azure.mkFetch Azure.Exited (Azure.f_key f)
                          (Azure.f_result f)) Hi). simpl in Hins.
      destruct (wg + -1 <? 0)%Z; simpl;
        (split; [lia | intros Hp; now apply Hnot_past in Hp]).
    + discriminate.
Qed.

Lemma closed_once_step c s s' : closed_once s -> step c s = Some s' -> closed_once s'.
Proof.
  unfold closed_once, Azure.step.
  destruct s as [lst fs wg closed closes results seen log st pan]; simpl.
  intros [Hn Hlast].
  destruct pan; [discriminate |]. destruct c as [| i].
  - unfold Azure.step_lister; simpl.
    destruct lst as [m | l err | l | items l | | |].
    + destruct (NotDone m).
      * destruct (ListBlobsFlatSegment B (Azure.containerUrl d) m st)
          as [[[l err] | msg] st']; intros [= <-]; simpl;
          (split; [exact Hn | intros Hlog Hc; now specialize (Hlast Hlog Hc)]).
      * intros [= <-]; simpl.
        split; [exact Hn | intros Hlog Hc; now specialize (Hlast Hlog Hc)].
    + destruct (negb (is_nil err)); intros [= <-]; simpl.
      * unfold Azure.close_results. simpl.
        destruct closed; simpl; (split; [now subst closes |]);
          intros Hlog; now destruct log.
      * split; [exact Hn | intros Hlog Hc; now specialize (Hlast Hlog Hc)].
    + destruct l; intros [= <-]; simpl;
        (split; [exact Hn | intros Hlog Hc; now specialize (Hlast Hlog Hc)]).
    + destruct items as [| blob rest].
      * intros [= <-]; simpl.
        split; [exact Hn | intros Hlog Hc; now specialize (Hlast Hlog Hc)].
      * destruct (Properties_ContentLength blob);
          [| intros [= <-]; simpl;
             split; [exact Hn | intros Hlog Hc; now specialize (Hlast Hlog Hc)]].
        destruct (negb (Azure.KeysOnly q)); intros [= <-].
        -- unfold Azure.wg_Add. simpl.
           destruct (wg + 1 <? 0)%Z; simpl;
             (split; [exact Hn | intros Hlog Hc; now specialize (Hlast Hlog Hc)]).
        -- unfold Azure.send. simpl.
           destruct closed; simpl;
             (split; [exact Hn | intros Hlog Hc; now specialize (Hlast Hlog Hc)]).
    + destruct (wg =? 0)%Z; [| discriminate].
      intros [= <-]; simpl.
      split; [exact Hn | intros Hlog Hc; now specialize (Hlast Hlog Hc)].
    + intros [= <-]. unfold Azure.close_results. simpl.
      destruct closed; simpl; (split; [now subst closes | reflexivity]).
    + discriminate.
  - unfold Azure.step_fetch; simpl.
    destruct (fs !! i) as [f |]; [| discriminate].
    destruct (Azure.f_stage f).
    + destruct (Azure.Get B d (Azure.f_key f) st)
        as [[[value err] | msg] st']; intros [= <-]; simpl;
        (split; [exact Hn | exact Hlast]).
    + unfold Azure.send; simpl. destruct closed; intros [= <-]; simpl;
        (split; [exact Hn | exact Hlast]).
    + intros [= <-]. unfold Azure.wg_Add. simpl.
      destruct (wg + -1 <? 0)%Z; simpl; (split; [exact Hn | exact Hlast]).
    + discriminate.
Qed.

Lemma reachable_wg_counts st s :
  reachable B NewKey d q st s -> wg_counts s.
Proof.
  intros [cs Hrun].
  eapply (run_invariant wg_counts wg_counts_step); [| exact Hrun].
  split; [reflexivity | intros [? | ?]; discriminate].
Qed.

Lemma reachable_closed_once st s :
  reachable B NewKey d q st s -> closed_once s.
Proof.
  intros [cs Hrun].
  eapply (run_invariant closed_once closed_once_step); [| exact Hrun].
  split; [reflexivity | discriminate].
Qed.

(** X16: while no listing request has failed, under any schedule, the
    channel is closed once, by the lister's last statement, and then no
    fetch is in flight. *)
Lemma close_after_fetches st s :
  reachable B NewKey d q st s ->
  Azure.q_log s = [] ->
  Azure.q_closed s = true ->
  Azure.q_closes s = 1%nat
  /\ Azure.q_lister s = Azure.Returned
  /\ forall f, f ∈ Azure.q_fetches s -> Azure.in_flight f = false.
Proof.
  intros Hreach Hlog Hclosed.
  destruct (reachable_closed_once st s Hreach) as [Hn Hlast].
  destruct (reachable_wg_counts st s Hreach) as [Hwg Hpast].
  specialize (Hlast Hlog Hclosed). rewrite Hclosed in Hn.
  split; [exact Hn |]. split; [exact Hlast |].
  intros f Hf. apply list_elem_of_lookup_1 in Hf as [i Hi].
  apply (waiting_for_zero (Azure.q_fetches s) i f); [| exact Hi].
  specialize (Hpast (or_intror Hlast)). lia.
Qed.

End QueryFacts.

(** C4, at lines 312-316: a query for values over two blobs listed one
    per page, where the request for the second page fails.  After seven
    steps of the lister the channel is closed while the fetch launched
    for the first page has not run yet; from there the fetch panics on
    its send, or the lister panics on the nil listing. *)
Theorem Query_closes_with_fetch_in_flight :
  let begin :=
    Azure.Query Mem.store (Azure.mkQuery false) (Mem.fresh Mem.second_page_fails) in
  let go := Azure.run Mem.backend Mem.NewKey Mem.store (Azure.mkQuery false) in
  (exists s,
     go (replicate 7 Azure.Lister) begin = Some s
     /\ Azure.q_closed s = true
     /\ Azure.q_panic s = None
     /\ exists f, Azure.q_fetches s = [f] /\ Azure.f_stage f = Azure.Fetching)
  /\ (exists s,
        go (replicate 7 Azure.Lister ++ [Azure.Fetch 0; Azure.Fetch 0]) begin = Some s
        /\ Azure.q_panic s = Some "send on closed channel"
        /\ Azure.q_results s = [])
  /\ (exists s,
        go (replicate 8 Azure.Lister) begin = Some s
        /\ Azure.q_panic s = Some nil_dereference
        /\ Azure.q_results s = []).
Proof.
  repeat split; eexists; (split; [vm_compute; reflexivity |]);
    repeat split; try reflexivity.
  eexists. split; reflexivity.
Qed.

(** Were a failed listing request to come with a response (here an empty
    last page), the lister would go on to its last statement and close
    the channel a second time. *)
Example Query_closes_twice :
  Azure.q_panic
    <$> Azure.run (listing_answers (Some (mkListResponse [] (Some "")), offline))
          Mem.NewKey Mem.store Mem.for_values (replicate 7 Azure.Lister)
          (Azure.Query Mem.store Mem.for_values (mkState tt [] []))
  = Some (Some "close of closed channel").
Proof. reflexivity. Qed.

(** ** Query: keys and their values *)







Section Pairing.
Context {W : Type} (B : Backend W) (NewKey : string -> Key).
Context (d : Azure.datastore) (q : Azure.Query_spec).
Context (P : W -> Prop) (stored : Key -> GoBytes * error).
Hypothesis for_values : Azure.KeysOnly q = false.
Hypothesis listing : healthy_listing B d P.
Hypothesis store : stable_store B d P stored.



End Pairing.

Section PairingInvariant.
Context {W : Type} (B : Backend W) (NewKey : string -> Key).
Context (d : Azure.datastore) (q : Azure.Query_spec).
Context (P : W -> Prop) (stored : Key -> GoBytes * error).
Hypothesis for_values : Azure.KeysOnly q = false.
Hypothesis listing : healthy_listing B d P.
Hypothesis store : stable_store B d P stored.



End PairingInvariant.


(** The in-memory backend is such an environment while its world stays
    what it is and no listing failure is injected. *)
Lemma Mem_fault_not_nil (faults : gmap string error) (name : string) (e : error) :
  Mem.fault faults name = Some e -> is_nil e = false.
Proof.
  unfold Mem.fault. destruct (faults !! name) as [e' |]; [| discriminate].
  destruct (is_nil e') eqn:Hn; [discriminate |]. now intros [= <-].
Qed.

Lemma Mem_healthy_listing (w : Mem.World) :
  Mem.list_faults w = ∅ -> healthy_listing Mem.backend Mem.store (eq w).
Proof.
  intros Hnone m w' <-. simpl. unfold Mem.ListBlobsFlatSegment, Mem.fault.
  rewrite Hnone, lookup_empty. eexists _, _.
  split; [reflexivity |]. split; [reflexivity |]. simpl.
  apply Forall_fmap, Forall_forall. intros e _. unfold has_length. simpl. eauto.
Qed.

Lemma Mem_stable_store (w : Mem.World) :
  stable_store Mem.backend Mem.store (eq w) (Mem.stored w).
Proof.
  intros k st ->. unfold Mem.stored, Azure.Get.
  unfold mbind, M_bind, mret, M_ret, Download, call, deref. simpl.
  unfold Mem.Download. simpl.
  destruct (Mem.fault (Mem.blob_faults (world st)) (Key_String k)) as [e |] eqn:Hf.
  - simpl. rewrite (Mem_fault_not_nil _ _ _ Hf). simpl.
    destruct (isError e ServiceCodeBlobNotFound); eexists; split; reflexivity.
  - destruct (Mem.blobs (world st) !! Key_String k); simpl;
      eexists; split; reflexivity.
Qed.

(** The same run, spelled out: the blob that cannot be read comes with
    its failure in the error field and no value, the other one with its
    value. *)
Example Query_with_one_failing_fetch :
  Azure.q_results (Mem.outcome Mem.unreachable_blob)
  = [Azure.mkResult "/a/c" None 5 Mem.connection_reset;
     Azure.mkResult "/a/b" (Some Mem.hello) 5 nil_err]
  /\ Azure.q_lister (Mem.outcome Mem.unreachable_blob) = Azure.Returned
  /\ Azure.q_closes (Mem.outcome Mem.unreachable_blob) = 1%nat.
Proof. repeat split; vm_compute; reflexivity. Qed.

(** * Further properties of the adapter *)

(** ** isError *)

(** X1: an error that [isError] recognises under one service code is not
    recognised under a different one. *)
Theorem isError_exclusive (err : error) (e e' : ServiceCodeType) :
  isError err e = true -> e <> e' -> isError err e' = false.
Proof.
  unfold isError. destruct (errors_As_StorageError err) as [c |]; [| discriminate].
  intros Hc Hne. apply bool_decide_eq_true in Hc. subst c.
  now apply bool_decide_eq_false.
Qed.

Lemma isError_exclusive_witness :
  isError Mem.not_found ServiceCodeContainerAlreadyExists = false.
Proof.
  apply (isError_exclusive Mem.not_found ServiceCodeBlobNotFound
           ServiceCodeContainerAlreadyExists); [reflexivity | discriminate].
Defined.

(** X2: wrapping an error, any number of times, does not change what
    [isError] answers for it; and an error with no storage error on its
    chain, like nil and [ErrNotFound], is recognised under no code. *)
Theorem isError_through_wrapping (msgs : list string) (err : error)
  (e : ServiceCodeType) :
  isError (foldr wrapError err msgs) e = isError err e
  /\ isError (foldr wrapError nil_err msgs) e = false
  /\ isError (foldr wrapError ErrNotFound msgs) e = false.
Proof.
  assert (H : forall err', isError (foldr wrapError err' msgs) e = isError err' e).
  { intros err'. induction msgs as [| msg msgs IH]; [reflexivity |].
    simpl. rewrite isError_wrapError. exact IH. }
  rewrite !H. repeat split; reflexivity.
Qed.

(** ** Put *)

(** X3: [Put] sends one request, an upload of the whole value to the
    blob named by the key, with no access tier; it returns the backend's
    error as it is, whatever it is and whether or not a response came
    with it; and a nil value is uploaded as an empty one. *)
Theorem Put_forwards_backend_error {W} (B : Backend W) (d : Azure.datastore)
  (key : Key) (value : GoBytes) (st : state W) up err w1 :
  be_Upload B (mkBlockBlobURL (Azure.containerUrl d) (Key_String key))
    (bytes_content value) AccessTierNone (world st) = ((up, err), w1) ->
  (Azure.Put B d key value st).1 = Done err
  /\ issued st (Azure.Put B d key value st).2
     = [ReqUpload (mkBlockBlobURL (Azure.containerUrl d) (Key_String key))
          (bytes_content value) AccessTierNone]
  /\ world (Azure.Put B d key value st).2 = w1
  /\ Azure.Put B d key None st = Azure.Put B d key (Some []) st.
Proof.
  intros H. rewrite (Put_result B d key value st up err w1 H).
  unfold after_call, issued. simpl. rewrite drop_app_length.
  repeat split; reflexivity.
Qed.

Lemma Put_forwards_backend_error_witness :
  (Azure.Put Mem.backend Mem.store (mkKey "/a/c") (Some Mem.hello)
     (Mem.fresh Mem.unreachable_blob)).1 = Done Mem.connection_reset.
Proof.
  exact (proj1 (Put_forwards_backend_error Mem.backend Mem.store (mkKey "/a/c")
                  (Some Mem.hello) (Mem.fresh Mem.unreachable_blob) _ _ _ eq_refl)).
Defined.

(** ** Get *)

(** X4: when the download is answered without an error but the stream
    of the body breaks off, [Get] returns the bytes read so far with a
    nil error: the failure of the read is dropped. *)
Theorem Get_drops_read_error {W} (B : Backend W) (d : Azure.datastore)
  (key : Key) (st : state W) r w' :
  be_Download B (Azure.keyUrl d key) 0 0 (world st) = ((Some r, nil_err), w') ->
  dr_body_err r <> nil_err ->
  (Azure.Get B d key st).1 = Done (Some (dr_body r), nil_err).
Proof. intros H _. now rewrite (Get_success B d key st r w' H). Qed.

Lemma Get_drops_read_error_witness :
  (Azure.Get broken_stream Mem.store (mkKey "/a/b") (mkState tt [] [])).1
  = Done (Some (take 3 Mem.hello), nil_err).
Proof.
  refine (Get_drops_read_error broken_stream Mem.store (mkKey "/a/b")
            (mkState tt [] []) _ _ eq_refl _).
  discriminate.
Defined.

(** ** Has, GetSize and Delete together *)

Lemma Has_run {W} (B : Backend W) (d : Azure.datastore) (key : Key)
  (st : state W) prop err w' :
  be_GetProperties B (Azure.keyUrl d key) (world st) = ((prop, err), w') ->
  Azure.Has B d key st =
    (Done (if is_nil err then (true, nil_err)
           else if isError err ServiceCodeBlobNotFound then (false, nil_err)
                else (false, err)),
     after_call st w' (ReqGetProperties (Azure.keyUrl d key))).
Proof.
  intros H. unfold Azure.Has. run_call H.
  destruct (is_nil err); simpl; [reflexivity |].
  now destruct (isError err ServiceCodeBlobNotFound).
Qed.

Lemma Delete_run {W} (B : Backend W) (d : Azure.datastore) (key : Key)
  (st : state W) del err w' :
  be_Delete B (Azure.keyUrl d key) DeleteSnapshotsOptionInclude (world st)
    = ((del, err), w') ->
  Azure.Delete B d key st =
    (Done (if isError err ServiceCodeBlobNotFound then nil_err else err),
     after_call st w'
       (ReqDelete (Azure.keyUrl d key) DeleteSnapshotsOptionInclude)).
Proof.
  intros H. unfold Azure.Delete. run_call H.
  now destruct (isError err ServiceCodeBlobNotFound).
Qed.

(** X5: for one and the same answer of the backend, [Has] says
    (false, nil) exactly when [GetSize] says (-1, ErrNotFound), and [Has]
    hands back an error exactly when [GetSize] hands back that error
    with size 0. *)
Theorem Has_agrees_with_GetSize {W} (B : Backend W) (d : Azure.datastore)
  (key : Key) (st : state W) :
  ((Azure.Has B d key st).1 = Done (false, nil_err)
   <-> (Azure.GetSize B d key st).1 = Done ((-1)%Z, ErrNotFound))
  /\ (forall e, e <> nil_err ->
      (Azure.Has B d key st).1 = Done (false, e)
      <-> (Azure.GetSize B d key st).1 = Done (0%Z, e)).
Proof.
  destruct (be_GetProperties B (Azure.keyUrl d key) (world st))
    as [[prop err] w'] eqn:H.
  rewrite (Has_run B d key st prop err w' H). simpl.
  destruct (is_nil err) eqn:Hn.
  - apply is_nil_true in Hn. subst err.
    unfold Azure.GetSize. run_call H.
    split; [| intros e He]; (split; [discriminate |]);
      destruct prop; simpl; intros [=]; congruence.
  - assert (Hnn : err <> nil_err) by (intros ->; discriminate Hn).
    destruct (isError err ServiceCodeBlobNotFound) eqn:Hnf.
    + rewrite (GetSize_not_found B d key st prop err w' H Hnf). simpl.
      split; [tauto |]. intros e He. split; intros [=]; congruence.
    + rewrite (GetSize_other_error B d key st prop err w' H Hnn Hnf). simpl.
      split; [split; intros [=]; congruence |].
      intros e He. split; intros [=]; congruence.
Qed.

(** X6: with a backend that forgets what is deleted, once [Delete] of a
    key has returned nil, [Has] of it says (false, nil), [Get] and
    [GetSize] say [ErrNotFound], and a second [Delete] returns nil
    again. *)
Theorem Delete_then_absent {W} (B : Backend W) (d : Azure.datastore)
  (k : Key) (st : state W) :
  forgets_deleted B ->
  (Azure.Delete B d k st).1 = Done nil_err ->
  (Azure.Has B d k (Azure.Delete B d k st).2).1 = Done (false, nil_err)
  /\ (Azure.Get B d k (Azure.Delete B d k st).2).1 = Done (None, ErrNotFound)
  /\ (Azure.GetSize B d k (Azure.Delete B d k st).2).1
     = Done ((-1)%Z, ErrNotFound)
  /\ (Azure.Delete B d k (Azure.Delete B d k st).2).1 = Done nil_err.
Proof.
  intros Hlaw.
  destruct (be_Delete B (Azure.keyUrl d k) DeleteSnapshotsOptionInclude (world st))
    as [[del err] w1] eqn:Hdel.
  rewrite (Delete_run B d k st del err w1 Hdel). simpl. intros Hnil.
  assert (Hgone : absent B (Azure.keyUrl d k) w1).
  { pose proof (Hlaw (Azure.keyUrl d k) (world st)) as Hl.
    rewrite Hdel in Hl. simpl in Hl. apply Hl.
    destruct (isError err ServiceCodeBlobNotFound); [now right |].
    left. congruence. }
  destruct Hgone as (Hp & Hd & Hx).
  destruct (be_GetProperties B (Azure.keyUrl d k) w1) as [[p e] w2] eqn:Hprop.
  destruct (be_Download B (Azure.keyUrl d k) 0 0 w1) as [[g e'] w3] eqn:Hdown.
  destruct (be_Delete B (Azure.keyUrl d k) DeleteSnapshotsOptionInclude w1)
    as [[del' e''] w4] eqn:Hdel'.
  simpl in Hp, Hd, Hx.
  set (st1 := after_call st w1
                (ReqDelete (Azure.keyUrl d k) DeleteSnapshotsOptionInclude)).
  repeat split.
  - rewrite (Has_run B d k st1 p e w2 Hprop). simpl.
    now rewrite (isError_not_nil _ _ Hp), Hp.
  - now rewrite (Get_not_found B d k st1 g e' w3 Hdown Hd).
  - now rewrite (GetSize_not_found B d k st1 p e w2 Hprop Hp).
  - rewrite (Delete_run B d k st1 del' e'' w4 Hdel'). simpl.
    destruct Hx as [-> | ->]; reflexivity.
Qed.

Lemma Mem_forgets_deleted : forgets_deleted Mem.backend.
Proof.
  intros blob w. simpl. unfold absent. simpl.
  unfold Mem.Delete, Mem.GetProperties, Mem.Download.
  destruct (Mem.fault (Mem.blob_faults w) (bb_name blob)) as [e |] eqn:Hf; simpl.
  - rewrite Hf. simpl. intros [-> | He].
    + now apply Mem_fault_not_nil in Hf.
    + auto.
  - destruct (Mem.blobs w !! bb_name blob) eqn:Hb; simpl; intros _.
    + rewrite Hf, lookup_delete_eq. simpl. auto.
    + rewrite Hf, Hb. simpl. auto.
Qed.

Lemma Delete_then_absent_witness :
  (Azure.Has Mem.backend Mem.store (mkKey "/a/b")
     (Azure.Delete Mem.backend Mem.store (mkKey "/a/b")
        (Mem.fresh Mem.sample)).2).1 = Done (false, nil_err).
Proof.
  exact (proj1 (Delete_then_absent Mem.backend Mem.store (mkKey "/a/b")
                  (Mem.fresh Mem.sample) Mem_forgets_deleted eq_refl)).
Defined.

(** ** Keys do not collide *)

Lemma Get_same_answer {W} (B : Backend W) (d : Azure.datastore) (k : Key)
  (st st' : state W) :
  (be_Download B (Azure.keyUrl d k) 0 0 (world st)).1
    = (be_Download B (Azure.keyUrl d k) 0 0 (world st')).1 ->
  (Azure.Get B d k st).1 = (Azure.Get B d k st').1.
Proof.
  unfold Azure.Get.
  unfold mbind, M_bind, mret, M_ret, Download, call, deref.
  destruct (be_Download B (Azure.keyUrl d k) 0 0 (world st)) as [[g e] w1].
  destruct (be_Download B (Azure.keyUrl d k) 0 0 (world st')) as [[g' e'] w2].
  simpl. intros [= -> ->].
  destruct (is_nil e'); simpl.
  - now destruct g'.
  - now destruct (isError e' ServiceCodeBlobNotFound).
Qed.

(** X7: keys are used as blob names as they are, so two different keys
    never share a blob: with a backend whose uploads are local to their
    blob, a [Put] under one key leaves what [Get] returns under any
    other key. *)
Theorem Put_leaves_other_keys {W} (B : Backend W) (d : Azure.datastore)
  (k k' : Key) (v : GoBytes) (st : state W) :
  uploads_are_local B ->
  k <> k' ->
  Azure.keyUrl d k <> Azure.keyUrl d k'
  /\ (Azure.Get B d k' (Azure.Put B d k v st).2).1 = (Azure.Get B d k' st).1.
Proof.
  intros Hlocal Hne.
  assert (Hnames : Key_String k <> Key_String k').
  { intros Heq. apply Hne. destruct k, k'. simpl in Heq. now subst. }
  split.
  - unfold Azure.keyUrl, NewBlockBlobURL. intros [= Heq]. contradiction.
  - apply Get_same_answer.
    destruct (be_Upload B (Azure.keyUrl d k) (bytes_content v) AccessTierNone
                (world st)) as [[up e] w1] eqn:Hup.
    rewrite (Put_result B d k v st up e w1 Hup). simpl.
    pose proof (Hlocal (Azure.containerUrl d) (Key_String k) (Key_String k')
                  (bytes_content v) AccessTierNone (world st) Hnames) as Hl.
    unfold Azure.keyUrl, NewBlockBlobURL in *. rewrite Hup in Hl. exact Hl.
Qed.

Lemma Mem_uploads_are_local : uploads_are_local Mem.backend.
Proof.
  intros c name name' body tier w Hne. simpl.
  unfold Mem.Upload, Mem.Download. simpl.
  destruct (Mem.fault (Mem.blob_faults w) name); simpl; [reflexivity |].
  destruct (Mem.fault (Mem.blob_faults w) name'); [reflexivity |].
  rewrite lookup_insert_ne by exact Hne.
  now destruct (Mem.blobs w !! name').
Qed.

Lemma Put_leaves_other_keys_witness :
  (Azure.Get Mem.backend Mem.store (mkKey "/a/b")
     (Azure.Put Mem.backend Mem.store (mkKey "/a/B") (Some Mem.world_bytes)
        (Mem.fresh Mem.sample)).2).1
  = (Azure.Get Mem.backend Mem.store (mkKey "/a/b") (Mem.fresh Mem.sample)).1.
Proof.
  refine (proj2 (Put_leaves_other_keys Mem.backend Mem.store (mkKey "/a/B")
                   (mkKey "/a/b") (Some Mem.world_bytes) (Mem.fresh Mem.sample)
                   Mem_uploads_are_local _)).
  discriminate.
Defined.

(** ** NewDatastore before the container is created *)

(** X8: when the credential cannot be made, [NewDatastore] returns that
    error and no adapter, and sends no request: the container is not
    touched. *)
Theorem NewDatastore_credential_failure {W} (B : Backend W)
  (accountName accountKey container : string) (st : state W) credential err :
  be_NewSharedKeyCredential B accountName accountKey = (credential, err) ->
  err <> nil_err ->
  Azure.NewDatastore B accountName accountKey container st
    = (Done (None, err), st).
Proof.
  intros Hc Hnn. unfold Azure.NewDatastore. rewrite Hc.
  now rewrite (is_nil_false _ Hnn).
Qed.

Lemma NewDatastore_credential_failure_witness :
  Azure.NewDatastore strict "account" "no!" "data" (Mem.fresh Mem.no_container)
    = (Done (None, bad_key), Mem.fresh Mem.no_container).
Proof.
  refine (NewDatastore_credential_failure strict "account" "no!" "data"
            (Mem.fresh Mem.no_container) _ _ eq_refl _).
  discriminate.
Defined.

(** X9: the error of [url.Parse] is not looked at: when the address
    made from the account and container names does not parse and the
    credential is fine, [NewDatastore] panics on the nil URL, before any
    request is sent. *)
Theorem NewDatastore_unparsable_address {W} (B : Backend W)
  (accountName accountKey container : string) (st : state W) credential :
  be_url_Parse B (container_address accountName container) = None ->
  be_NewSharedKeyCredential B accountName accountKey = (credential, nil_err) ->
  Azure.NewDatastore B accountName accountKey container st
    = (Panic nil_dereference, st).
Proof.
  intros Hu Hc. unfold Azure.NewDatastore. now rewrite Hu, Hc.
Qed.

Lemma NewDatastore_unparsable_address_witness :
  Azure.NewDatastore strict "my account" "a2V5" "data"
    (Mem.fresh Mem.no_container)
  = (Panic nil_dereference, Mem.fresh Mem.no_container).
Proof.
  exact (NewDatastore_unparsable_address strict "my account" "a2V5" "data"
           (Mem.fresh Mem.no_container) _ eq_refl eq_refl).
Defined.

(** ** The draft revision *)

(** X10: the draft [NewDatastore] (lines 398-411) gives up on every
    failure of the container creation, container-already-exists
    included: it returns the error and no adapter. *)
Theorem Draft_NewDatastore_any_creation_failure {W} (B : Backend W)
  (accountName accountKey container : string) (st : state W)
  u credential create err w' :
  be_url_Parse B (container_address accountName container) = Some u ->
  be_NewSharedKeyCredential B accountName accountKey = (credential, nil_err) ->
  be_Create B (mkContainerURL u credential) (world st) = ((create, err), w') ->
  err <> nil_err ->
  (AzureDraft.NewDatastore B accountName accountKey container st).1
    = Done (None, err).
Proof.
  intros Hu Hc Hcreate Hnn. unfold AzureDraft.NewDatastore.
  rewrite Hu, Hc. simpl. run_call Hcreate. now rewrite (is_nil_false _ Hnn).
Qed.

Lemma Draft_NewDatastore_any_creation_failure_witness :
  (AzureDraft.NewDatastore Mem.backend "account" "a2V5" "data"
     (Mem.fresh Mem.empty)).1 = Done (None, Mem.already_exists)
  /\ isError Mem.already_exists ServiceCodeContainerAlreadyExists = true.
Proof.
  split; [| reflexivity].
  refine (Draft_NewDatastore_any_creation_failure Mem.backend "account" "a2V5"
            "data" (Mem.fresh Mem.empty) _ _ _ _ _ eq_refl eq_refl eq_refl _).
  discriminate.
Defined.

(** X11: the draft [Put] (lines 419-429) prints the status of the
    response before it returns: with a response it returns the
    backend's error as it is, without one it panics, so an upload that
    fails with no response is never reported as an error. *)
Theorem Draft_Put_needs_response {W} (B : Backend W) (d : AzureDraft.datastore)
  (key : Key) (value : GoBytes) (st : state W) put err w1 :
  be_Upload B (AzureDraft.keyUrl d key) (bytes_content value) AccessTierCool
    (world st) = ((put, err), w1) ->
  AzureDraft.Put B d key value st =
    match put with
    | Some r =>
        (Done err,
         mkState w1
           (requests st ++ [ReqUpload (AzureDraft.keyUrl d key)
                              (bytes_content value) AccessTierCool])
           (stdout st ++ [rs_Status r]))
    | None =>
        (Panic nil_dereference,
         after_call st w1
           (ReqUpload (AzureDraft.keyUrl d key) (bytes_content value)
              AccessTierCool))
    end.
Proof. intros H. unfold AzureDraft.Put. run_call H. now destruct put. Qed.

Lemma Draft_Put_needs_response_witness :
  (AzureDraft.Put Mem.backend Mem.draft_store (mkKey "/a/c") (Some Mem.hello)
     (Mem.fresh Mem.unreachable_blob)).1 = Panic nil_dereference
  /\ (AzureDraft.Put Mem.backend Mem.draft_store (mkKey "/a/b") (Some Mem.hello)
        (Mem.fresh Mem.unreachable_blob)).1 = Done nil_err.
Proof.
  split.
  - exact (f_equal fst
             (Draft_Put_needs_response Mem.backend Mem.draft_store (mkKey "/a/c")
                (Some Mem.hello) (Mem.fresh Mem.unreachable_blob) _ _ _ eq_refl)).
  - exact (f_equal fst
             (Draft_Put_needs_response Mem.backend Mem.draft_store (mkKey "/a/b")
                (Some Mem.hello) (Mem.fresh Mem.unreachable_blob) _ _ _ eq_refl)).
Defined.

(** X12: the draft [Has] (lines 454-464) returns (false, err) for every
    backend error, blob-not-found included, so an absent key is an
    error there; without an error it answers whether the status code of
    the response is 200. *)
Theorem Draft_Has_answers {W} (B : Backend W) (d : AzureDraft.datastore)
  (key : Key) (st : state W) prop err w' :
  be_GetProperties B (AzureDraft.keyUrl d key) (world st) = ((prop, err), w') ->
  (err <> nil_err -> (AzureDraft.Has B d key st).1 = Done (false, err))
  /\ (forall p, prop = Some p -> err = nil_err ->
      (AzureDraft.Has B d key st).1
        = Done ((rs_StatusCode (gp_status p) =? 200)%Z, nil_err)).
Proof.
  intros H. unfold AzureDraft.Has. run_call H. split.
  - intros Hnn. now rewrite (is_nil_false _ Hnn).
  - now intros p -> ->.
Qed.

Lemma Draft_Has_answers_witness :
  (AzureDraft.Has Mem.backend Mem.draft_store (mkKey "/a/x")
     (Mem.fresh Mem.sample)).1 = Done (false, Mem.not_found)
  /\ (AzureDraft.Has Mem.backend Mem.draft_store (mkKey "/a/b")
        (Mem.fresh Mem.sample)).1 = Done (true, nil_err).
Proof.
  split.
  - refine (proj1 (Draft_Has_answers Mem.backend Mem.draft_store (mkKey "/a/x")
                     (Mem.fresh Mem.sample) _ _ _ eq_refl) _).
    discriminate.
  - exact (proj2 (Draft_Has_answers Mem.backend Mem.draft_store (mkKey "/a/b")
                    (Mem.fresh Mem.sample) _ _ _ eq_refl) _ eq_refl eq_refl).
Defined.

(** X13: on the same container the two revisions of [Get] and of
    [GetSize] do the same, result and requests and output, whenever the
    backend's answer is not a blob-not-found error: the translation of
    that error is all that tells them apart. *)
Theorem revisions_agree_off_not_found {W} (B : Backend W)
  (d : Azure.datastore) (d' : AzureDraft.datastore) (key : Key) (st : state W) :
  AzureDraft.containerUrl d' = Azure.containerUrl d ->
  (isError (be_Download B (Azure.keyUrl d key) 0 0 (world st)).1.2
     ServiceCodeBlobNotFound = false ->
   AzureDraft.Get B d' key st = Azure.Get B d key st)
  /\ (isError (be_GetProperties B (Azure.keyUrl d key) (world st)).1.2
        ServiceCodeBlobNotFound = false ->
      AzureDraft.GetSize B d' key st = Azure.GetSize B d key st).
Proof.
  intros Hsame.
  assert (Hurl : AzureDraft.keyUrl d' key = Azure.keyUrl d key).
  { unfold AzureDraft.keyUrl, Azure.keyUrl. now rewrite Hsame. }
  split.
  - unfold AzureDraft.Get, Azure.Get. rewrite Hurl.
    unfold mbind, M_bind, mret, M_ret, Download, call.
    destruct (be_Download B (Azure.keyUrl d key) 0 0 (world st)) as [[g e] w'].
    simpl. intros Hnf. rewrite Hnf. now destruct (is_nil e).
  - unfold AzureDraft.GetSize, Azure.GetSize. rewrite Hurl.
    unfold mbind, M_bind, mret, M_ret, GetProperties, call.
    destruct (be_GetProperties B (Azure.keyUrl d key) (world st)) as [[p e] w'].
    simpl. intros Hnf. rewrite Hnf. now destruct (is_nil e).
Qed.

Lemma revisions_agree_off_not_found_witness :
  AzureDraft.Get Mem.backend Mem.draft_store (mkKey "/a/c")
    (Mem.fresh Mem.unreachable_blob)
  = Azure.Get Mem.backend Mem.store (mkKey "/a/c")
      (Mem.fresh Mem.unreachable_blob).
Proof.
  exact (proj1 (revisions_agree_off_not_found Mem.backend Mem.store
                  Mem.draft_store (mkKey "/a/c")
                  (Mem.fresh Mem.unreachable_blob) eq_refl) eq_refl).
Defined.

(** ** Query: what it asks of the backend *)

Lemma Get_requests {W} (B : Backend W) (d : Azure.datastore) (k : Key)
  (st : state W) :
  requests (Azure.Get B d k st).2
    = requests st ++ [ReqDownload (Azure.keyUrl d k) 0 0].
Proof.
  unfold Azure.Get. unfold mbind, M_bind, mret, M_ret, Download, call, deref.
  destruct (be_Download B (Azure.keyUrl d k) 0 0 (world st)) as [[g e] w'].
  simpl. destruct (is_nil e); simpl.
  - now destruct g.
  - now destruct (isError e ServiceCodeBlobNotFound).
Qed.

Lemma query_request_more (NewKey : string -> Key) (d : Azure.datastore)
  (seen : list BlobItem) (blob : BlobItem) (sent : list Request) :
  Forall (query_request NewKey d seen) sent ->
  Forall (query_request NewKey d (seen ++ [blob])) sent.
Proof.
  intros H. eapply Forall_impl; [exact H |].
  intros r [Hl | (b & Hb & Hr)]; [now left |].
  right. exists b. split; [| exact Hr]. apply elem_of_app. now left.
Qed.

Section ReadsOnly.
Context {W : Type} (B : Backend W) (NewKey : string -> Key).
Context (d : Azure.datastore) (q : Azure.Query_spec) (st0 : state W).

Lemma reads_only_step c s s' :
  reads_only NewKey d q st0 s -> Azure.step B NewKey d q c s = Some s' ->
  reads_only NewKey d q st0 s'.
Proof.
  unfold reads_only, Azure.step.
  destruct s as [lst fs wg closed closes results seen log st pan]; simpl.
  intros (Hkeys & sent & Hsent & Hall & Honly).
  destruct pan; [discriminate |]. destruct c as [| i].
  - unfold Azure.step_lister; simpl.
    destruct lst as [m | l err | l | items l | | |].
    + destruct (NotDone m).
      * unfold ListBlobsFlatSegment, call.
        destruct (be_ListBlobsFlatSegment B (Azure.containerUrl d) m (world st))
          as [[l err] w']. intros [= <-]; simpl.
        split; [exact Hkeys |].
        exists (sent ++ [ReqListBlobsFlatSegment (Azure.containerUrl d) m]).
        rewrite Hsent, app_assoc. split; [reflexivity |]. split.
        -- apply Forall_app. split; [exact Hall |].
           apply Forall_singleton. left. eauto.
        -- intros Hk. apply Forall_app. split; [now apply Honly |].
           apply Forall_singleton. eauto.
      * intros [= <-]; simpl. eauto.
    + destruct (negb (is_nil err)); intros [= <-]; simpl; [| eauto].
      unfold Azure.close_results. simpl. destruct closed; simpl; eauto.
    + destruct l; intros [= <-]; simpl; eauto.
    + destruct items as [| blob rest]; [intros [= <-]; simpl; eauto |].
      destruct (Properties_ContentLength blob);
        [| intros [= <-]; simpl; eauto].
      destruct (Azure.KeysOnly q) eqn:Hk; simpl; intros [= <-].
      * unfold Azure.send. simpl. destruct closed; simpl;
          (split; [exact Hkeys |]); exists sent;
          (split; [exact Hsent |]);
          (split; [now apply query_request_more | exact Honly]).
      * unfold Azure.wg_Add. simpl.
        assert (Hgoal : Azure.f_key
                          <$> fs ++ [Azure.mkFetch Azure.Fetching
                                       (NewKey (Name blob))
                                       (Azure.mkResult
                                          (Key_String (NewKey (Name blob)))
                                          None (int_of_int64 z) nil_err)]
                        = (fun b => NewKey (Name b)) <$> seen ++ [blob]).
        { rewrite !fmap_app, Hkeys. reflexivity. }
        destruct (wg + 1 <? 0)%Z; simpl;
          (split; [exact Hgoal |]); exists sent;
          (split; [exact Hsent |]);
          (split; [now apply query_request_more | discriminate]).
    + destruct (wg =? 0)%Z; [| discriminate]. intros [= <-]; simpl. eauto.
    + intros [= <-]. unfold Azure.close_results. simpl.
      destruct closed; simpl; eauto.
    + discriminate.
  - unfold Azure.step_fetch; simpl.
    destruct (fs !! i) as [f |] eqn:Hi; [| discriminate].
    assert (Hsame : forall g, Azure.f_key g = Azure.f_key f ->
              Azure.f_key <$> <[i := g]> fs = Azure.f_key <$> fs).
    { intros g Hg. rewrite list_fmap_insert, Hg.
      apply list_insert_id. now rewrite list_lookup_fmap, Hi. }
    assert (Hblob : Azure.KeysOnly q = false
                    /\ exists blob, blob ∈ seen
                                    /\ NewKey (Name blob) = Azure.f_key f).
    { assert (Hk : (Azure.f_key <$> fs) !! i = Some (Azure.f_key f))
        by now rewrite list_lookup_fmap, Hi.
      rewrite Hkeys in Hk. destruct (Azure.KeysOnly q); [discriminate Hk |].
      split; [reflexivity |].
      apply list_lookup_fmap_Some in Hk as (blob & Hb & Hkey).
      exists blob. split; [eapply list_elem_of_lookup_2; eauto | congruence]. }
    destruct Hblob as (Hvalues & blob & Hb & Hkey).
    destruct (Azure.f_stage f).
    + pose proof (Get_requests B d (Azure.f_key f) st) as Hreq.
      destruct (Azure.Get B d (Azure.f_key f) st)
        as [[[value err] | msg] st']; simpl in Hreq; intros [= <-]; simpl;
        (split; [try rewrite Hsame by reflexivity; exact Hkeys |]);
        exists (sent ++ [ReqDownload (Azure.keyUrl d (Azure.f_key f)) 0 0]);
        rewrite Hreq, Hsent, app_assoc;
        (split; [reflexivity |]);
        (split; [| intros Hk; congruence]);
        (apply Forall_app; split; [exact Hall |]);
        apply Forall_singleton; right; exists blob;
        (split; [exact Hb | now rewrite Hkey]).
    + unfold Azure.send; simpl. destruct closed; intros [= <-]; simpl;
        (split; [try rewrite Hsame by reflexivity; exact Hkeys | eauto]).
    + intros [= <-]. unfold Azure.wg_Add. simpl.
      destruct (wg + -1 <? 0)%Z; simpl;
        (split; [try rewrite Hsame by reflexivity; exact Hkeys | eauto]).
    + discriminate.
Qed.

End ReadsOnly.

(** X14: a query only reads.  Under any schedule, each request sent
    since it began is a listing of the datastore's container or a
    download in full of the blob that the key of a listed name stands
    for; nothing is uploaded, deleted or created; and a keys-only query
    launches no fetch and sends listings only. *)
Theorem Query_reads_only {W} (B : Backend W) (NewKey : string -> Key)
  (d : Azure.datastore) (q : Azure.Query_spec) (st : state W)
  (s : Azure.qstate) :
  reachable B NewKey d q st s ->
  Forall (query_request NewKey d (Azure.q_listed s))
    (issued st (Azure.q_state s))
  /\ (Azure.KeysOnly q = true ->
      Azure.q_fetches s = []
      /\ existsb fetches_content (issued st (Azure.q_state s)) = false).
Proof.
  intros [cs Hrun].
  assert (Hinv : reads_only NewKey d q st s).
  { eapply (run_invariant B NewKey d q (reads_only NewKey d q st)
              (reads_only_step B NewKey d q st)); [| exact Hrun].
    split; [simpl; now destruct (Azure.KeysOnly q) |].
    exists []. simpl. rewrite app_nil_r. repeat split; constructor. }
  destruct Hinv as (Hkeys & sent & Hsent & Hall & Honly).
  assert (Hiss : issued st (Azure.q_state s) = sent).
  { unfold issued. rewrite Hsent. apply drop_app_length. }
  rewrite Hiss. split; [exact Hall |]. intros Hk. split.
  - rewrite Hk in Hkeys. now apply fmap_nil_inv in Hkeys.
  - specialize (Honly Hk). clear Hall Hsent Hiss.
    induction Honly as [| r sent' [m ->] _ IH]; [reflexivity | exact IH].
Qed.

Lemma Query_reads_only_witness :
  issued (Mem.fresh Mem.sample) (Azure.q_state (Mem.outcome Mem.sample))
  = [ReqListBlobsFlatSegment Mem.the_container None;
     ReqListBlobsFlatSegment Mem.the_container (Some "/a/c");
     ReqDownload (mkBlockBlobURL Mem.the_container "/a/c") 0 0;
     ReqDownload (mkBlockBlobURL Mem.the_container "/a/b") 0 0]
  /\ Forall (query_request Mem.NewKey Mem.store
               (Azure.q_listed (Mem.outcome Mem.sample)))
       (issued (Mem.fresh Mem.sample) (Azure.q_state (Mem.outcome Mem.sample))).
Proof.
  split; [vm_compute; reflexivity |].
  refine (proj1 (Query_reads_only Mem.backend Mem.NewKey Mem.store
                   Mem.for_values (Mem.fresh Mem.sample)
                   (Mem.outcome Mem.sample) _)).
  exists Mem.schedule. vm_compute. reflexivity.
Defined.

(** ** Query: keys only *)

Section KeysOnly.
Context {W : Type} (B : Backend W) (NewKey : string -> Key).
Context (d : Azure.datastore) (q : Azure.Query_spec) (P : W -> Prop).
Hypothesis for_keys : Azure.KeysOnly q = true.
Hypothesis listing : healthy_listing B d P.

Ltac hold Hlast :=
  refine (conj _ (conj _ (conj _ (conj _ (conj _ (conj _ _)))))); simpl;
  [ reflexivity
  | try assumption
  | try exact I; try assumption
  | try first [ assumption
              | intros Hc;
                first [ reflexivity | discriminate Hc
                      | specialize (Hlast Hc); discriminate ] ]
  | try reflexivity
  | try reflexivity
  | try assumption ].

Lemma keys_only_step c s s' :
  keys_only NewKey P s -> Azure.step B NewKey d q c s = Some s' ->
  keys_only NewKey P s'.
Proof.
  unfold keys_only, Azure.step.
  destruct s as [lst fs wg closed closes results seen log st pan]; simpl.
  intros (Hpan & HP & Hsound & Hlast & Hfs & Hwg & Hres).
  subst pan fs wg. destruct c as [| i]; [| discriminate].
  unfold Azure.step_lister; simpl.
  destruct lst as [m | l err | l | items l | | |]; simpl in Hsound.
  - destruct (NotDone m).
    + destruct (listing m (world st) HP) as (l & w' & Hreply & HP' & Hitems).
      unfold ListBlobsFlatSegment, call. rewrite Hreply.
      intros [= <-]. hold Hlast. eauto.
    + intros [= <-]. hold Hlast.
  - destruct Hsound as (-> & l' & -> & Hitems). simpl.
    intros [= <-]. hold Hlast. eauto.
  - destruct Hsound as (l' & -> & Hitems).
    intros [= <-]. hold Hlast.
  - destruct items as [| blob rest].
    + intros [= <-]. hold Hlast.
    + apply Forall_cons in Hsound as [[len Hblob] Hrest].
      rewrite Hblob, for_keys. simpl.
      destruct closed; [specialize (Hlast eq_refl); discriminate |].
      unfold Azure.send. simpl. intros [= <-]. hold Hlast.
      rewrite fmap_app, Hres. simpl. unfold blank. now rewrite Hblob.
  - intros [= <-]. hold Hlast.
  - intros [= <-]. unfold Azure.close_results. simpl.
    destruct closed; [specialize (Hlast eq_refl); discriminate |].
    simpl. hold Hlast.
  - discriminate.
Qed.

End KeysOnly.

Lemma reachable_keys_only {W} (B : Backend W) (NewKey : string -> Key)
  (d : Azure.datastore) (q : Azure.Query_spec) (P : W -> Prop)
  (st : state W) (s : Azure.qstate) :
  Azure.KeysOnly q = true ->
  P (world st) ->
  healthy_listing B d P ->
  reachable B NewKey d q st s ->
  keys_only NewKey P s.
Proof.
  intros Hk HP Hlist [cs Hrun].
  eapply (run_invariant B NewKey d q (keys_only NewKey P)
            (keys_only_step B NewKey d q P Hk Hlist)); [| exact Hrun].
  unfold keys_only. simpl.
  refine (conj _ (conj _ (conj _ (conj _ (conj _ (conj _ _))))));
    first [ reflexivity | assumption | exact I | discriminate ].
Qed.

(** The same run, spelled out. *)
Example Query_keys_only_run :
  (fun s => (Azure.q_results s, Azure.q_lister s, Azure.q_closes s))
    <$> Azure.run Mem.backend Mem.NewKey Mem.store (Azure.mkQuery true)
          (replicate 13 Azure.Lister)
          (Azure.Query Mem.store (Azure.mkQuery true) (Mem.fresh Mem.sample))
  = Some ([Azure.mkResult "/a/c" None 5 nil_err;
           Azure.mkResult "/a/b" None 5 nil_err], Azure.Returned, 1%nat).
Proof. vm_compute. reflexivity. Qed.

(** ** Query: the wait group and the close, once more *)

Lemma close_after_fetches_witness :
  Azure.q_closes (Mem.outcome Mem.sample) = 1%nat
  /\ Azure.q_lister (Mem.outcome Mem.sample) = Azure.Returned
  /\ forall f, f ∈ Azure.q_fetches (Mem.outcome Mem.sample) ->
               Azure.in_flight f = false.
Proof.
  refine (close_after_fetches Mem.backend Mem.NewKey Mem.store
            Mem.for_values (Mem.fresh Mem.sample) (Mem.outcome Mem.sample)
            _ _ _).
  - exists Mem.schedule. vm_compute. reflexivity.
  - vm_compute. reflexivity.
  - vm_compute. reflexivity.
Defined.

(** X17: under any schedule and whatever the backend answers, the
    counter of the wait group is the number of fetches that have not
    run their deferred [wg.Done] yet, so it is never negative; and once
    the lister is past [wg.Wait()] every fetch is over. *)
Theorem wait_group_counts_fetches {W} (B : Backend W) (NewKey : string -> Key)
  (d : Azure.datastore) (q : Azure.Query_spec) (st : state W)
  (s : Azure.qstate) :
  reachable B NewKey d q st s ->
  Azure.q_wg s = Z.of_nat (waiting_for (Azure.q_fetches s))
  /\ (0 <= Azure.q_wg s)%Z
  /\ (Azure.q_lister s = Azure.AtClose \/ Azure.q_lister s = Azure.Returned ->
      forall f, f ∈ Azure.q_fetches s -> Azure.f_stage f = Azure.Exited).
Proof.
  intros Hreach.
  destruct (reachable_wg_counts B NewKey d q st s Hreach) as [Hwg Hpast].
  split; [exact Hwg |]. split; [lia |].
  intros Hp f Hf. specialize (Hpast Hp).
  apply list_elem_of_lookup_1 in Hf as [i Hi].
  assert (Hover : Azure.in_flight f = false).
  { apply (waiting_for_zero (Azure.q_fetches s) i f); [lia | exact Hi]. }
  unfold Azure.in_flight in Hover. now destruct (Azure.f_stage f).
Qed.

Lemma wait_group_counts_fetches_witness :
  Azure.q_wg (Mem.outcome Mem.unreachable_blob) = 0%Z
  /\ forall f, f ∈ Azure.q_fetches (Mem.outcome Mem.unreachable_blob) ->
               Azure.f_stage f = Azure.Exited.
Proof.
  destruct (wait_group_counts_fetches Mem.backend Mem.NewKey Mem.store
              Mem.for_values (Mem.fresh Mem.unreachable_blob)
              (Mem.outcome Mem.unreachable_blob))
    as (Hwg & _ & Hover).
  - exists Mem.schedule. vm_compute. reflexivity.
  - split; [vm_compute; reflexivity |].
    apply Hover. right. vm_compute. reflexivity.
Defined.

(** ** Query: a listing that fails at once *)

(** X18: when the first listing request fails and comes with no
    response, the lister logs the error, closes the channel and then
    panics on the nil listing: the consumer is given an empty sequence
    that ends, the error reaches it in no entry, and nothing can run
    after the panic. *)
Theorem Query_first_listing_fails {W} (B : Backend W) (NewKey : string -> Key)
  (d : Azure.datastore) (q : Azure.Query_spec) (st : state W) err w' :
  be_ListBlobsFlatSegment B (Azure.containerUrl d) None (world st)
    = ((None, err), w') ->
  err <> nil_err ->
  exists s,
    Azure.run B NewKey d q (replicate 3 Azure.Lister) (Azure.Query d q st)
      = Some s
    /\ Azure.q_panic s = Some nil_dereference
    /\ Azure.q_closed s = true
    /\ Azure.q_results s = []
    /\ Azure.q_log s = [("query failed with " ++ Azure.Error_text err)%string]
    /\ forall c, Azure.step B NewKey d q c s = None.
Proof.
  intros Hreply Hnn. eexists. split.
  - simpl. unfold Azure.step at 1. simpl. unfold Azure.step_lister at 1. simpl.
    unfold ListBlobsFlatSegment, call. simpl. rewrite Hreply. simpl.
    unfold Azure.step at 1. simpl. unfold Azure.step_lister at 1. simpl.
    rewrite (is_nil_false _ Hnn). simpl.
    unfold Azure.step, Azure.step_lister. simpl. reflexivity.
  - simpl. repeat split.
Qed.

Lemma Query_first_listing_fails_witness :
  exists s,
    Azure.run (listing_answers (None, offline)) Mem.NewKey Mem.store
      Mem.for_values (replicate 3 Azure.Lister)
      (Azure.Query Mem.store Mem.for_values (mkState tt [] [])) = Some s
    /\ Azure.q_panic s = Some nil_dereference
    /\ Azure.q_closed s = true
    /\ Azure.q_results s = [].
Proof.
  destruct (Query_first_listing_fails (listing_answers (None, offline))
              Mem.NewKey Mem.store Mem.for_values (mkState tt [] [])
              offline tt eq_refl) as (s & Hrun & Hpan & Hclosed & Hres & _).
  - discriminate.
  - exists s. repeat split; assumption.
Defined.

(** ** Query: the whole listing of the backend *)

Section FollowsListing.
Context {W : Type} (B : Backend W) (NewKey : string -> Key).
Context (d : Azure.datastore) (q : Azure.Query_spec) (P : W -> Prop).
Context (page : Marker -> ListBlobsFlatSegmentResponse).
Context (total : list BlobItem).
Hypothesis served : pages_served B d P page.

Lemma walk_page n m rest :
  walk page n m = Some rest -> NotDone m = true ->
  exists n' tail,
    walk page n' (NextMarker (page m)) = Some tail
    /\ rest = Segment_BlobItems (page m) ++ tail.
Proof.
  destruct n as [| n']; [discriminate |]. simpl. intros Hw Hm.
  rewrite Hm in Hw. apply fmap_Some in Hw as (tail & Htail & ->). eauto.
Qed.

Lemma walk_done n m rest :
  walk page n m = Some rest -> NotDone m = false -> rest = [].
Proof.
  destruct n as [| n']; [discriminate |]. simpl. intros Hw Hm.
  rewrite Hm in Hw. congruence.
Qed.

Lemma follows_listing_step c s s' :
  P (world (Azure.q_state s)) ->
  follows_listing page total s ->
  Azure.step B NewKey d q c s = Some s' ->
  follows_listing page total s'.
Proof.
  unfold follows_listing, Azure.step.
  destruct s as [lst fs wg closed closes results seen log st pan]; simpl.
  intros HP (rest & Hleft & Htotal).
  destruct pan; [discriminate |]. destruct c as [| i].
  - unfold Azure.step_lister; simpl.
    destruct lst as [m | l err | l | items l | | |]; simpl in Hleft.
    + destruct Hleft as [n Hwalk]. destruct (NotDone m) eqn:Hm.
      * destruct (proj1 served m (world st) HP) as (w' & Hreply & _).
        unfold ListBlobsFlatSegment, call. rewrite Hreply.
        intros [= <-]; simpl. exists rest. split; [| exact Htotal].
        destruct (walk_page n m rest Hwalk Hm) as (n' & tail & Ht & ->). eauto.
      * intros [= <-]; simpl. exists rest. split; [| exact Htotal].
        exact (walk_done n m rest Hwalk Hm).
    + destruct l as [l' |]; [| contradiction].
      destruct (negb (is_nil err)); intros [= <-]; simpl.
      * unfold Azure.close_results. simpl.
        destruct closed; simpl; exists rest; (split; [exact Hleft | exact Htotal]).
      * exists rest. split; [exact Hleft | exact Htotal].
    + destruct l as [l' |]; [| contradiction].
      intros [= <-]; simpl. exists rest. split; [exact Hleft | exact Htotal].
    + destruct Hleft as (n & tail & Hwalk & ->).
      destruct items as [| blob items'].
      * intros [= <-]; simpl. exists tail. split; [eauto | exact Htotal].
      * destruct (Properties_ContentLength blob).
        -- assert (Hnext : (seen ++ [blob]) ++ items' ++ tail = total)
             by (rewrite <- Htotal, <- app_assoc; reflexivity).
           destruct (negb (Azure.KeysOnly q)); intros [= <-].
           ++ unfold Azure.wg_Add. simpl.
              destruct (wg + 1 <? 0)%Z; simpl;
                exists (items' ++ tail); (split; [eauto | exact Hnext]).
           ++ unfold Azure.send. simpl.
              destruct closed; simpl;
                exists (items' ++ tail); (split; [eauto | exact Hnext]).
        -- intros [= <-]; simpl. exists ((blob :: items') ++ tail).
           split; [eauto | exact Htotal].
    + destruct (wg =? 0)%Z; [| discriminate]. intros [= <-]; simpl.
      exists rest. split; [exact Hleft | exact Htotal].
    + intros [= <-]. unfold Azure.close_results. simpl.
      destruct closed; simpl; exists rest; (split; [exact Hleft | exact Htotal]).
    + discriminate.
  - unfold Azure.step_fetch; simpl.
    destruct (fs !! i) as [f |]; [| discriminate].
    destruct (Azure.f_stage f).
    + destruct (Azure.Get B d (Azure.f_key f) st)
        as [[[value err] | msg] st']; intros [= <-]; simpl;
        exists rest; (split; [exact Hleft | exact Htotal]).
    + unfold Azure.send; simpl. destruct closed; intros [= <-]; simpl;
        exists rest; (split; [exact Hleft | exact Htotal]).
    + intros [= <-]. unfold Azure.wg_Add. simpl.
      destruct (wg + -1 <? 0)%Z; simpl;
        exists rest; (split; [exact Hleft | exact Htotal]).
    + discriminate.
Qed.

Lemma served_is_healthy : healthy_listing B d P.
Proof.
  intros m w HP. destruct (proj1 served m w HP) as (w' & Hreply & HP').
  exists (page m), w'. repeat split; [exact Hreply | exact HP' |].
  exact (proj2 served m).
Qed.

End FollowsListing.


Lemma Mem_pages_served (w : Mem.World) :
  Mem.list_faults w = ∅ ->
  pages_served Mem.backend Mem.store (eq w) (listing_page w).
Proof.
  intros Hnone. split.
  - intros m w' <-. exists w. split; [| reflexivity].
    simpl. unfold listing_page, Mem.ListBlobsFlatSegment, Mem.fault.
    rewrite Hnone, lookup_empty. reflexivity.
  - intros m. unfold listing_page, Mem.ListBlobsFlatSegment, Mem.fault.
    rewrite Hnone, lookup_empty. simpl.
    apply Forall_fmap, Forall_forall. intros e _. unfold has_length. simpl. eauto.
Qed.


(** ** Query: every stored value, every key *)



(** X15: a keys-only query, in an environment where the backend serves
    the listing [total] page by page.  Under any schedule nothing panics
    and no fetch is launched; the entries sent are, in the order of the
    listing, those of its first blobs, each with its key and size, a nil
    value and a nil error; once the lister has returned they are those
    of the whole listing; and the channel is closed only then. *)
Theorem Query_keys_only {W} (B : Backend W) (NewKey : string -> Key)
  (d : Azure.datastore) (q : Azure.Query_spec) (P : W -> Prop)
  (page : Marker -> ListBlobsFlatSegmentResponse)
  (total : list BlobItem) (n : nat) (st : state W) (s : Azure.qstate) :
  Azure.KeysOnly q = true ->
  P (world st) ->
  pages_served B d P page ->
  walk page n None = Some total ->
  reachable B NewKey d q st s ->
  Azure.q_panic s = None
  /\ Azure.q_fetches s = []
  /\ (exists rest,
        Azure.q_results s ++ (blank NewKey <$> rest) = blank NewKey <$> total)
  /\ (Azure.q_lister s = Azure.Returned ->
      Azure.q_results s = blank NewKey <$> total)
  /\ (Azure.q_closed s = true -> Azure.q_lister s = Azure.Returned).
Proof.
  intros Hk HP Hserved Hwalk Hreach.
  pose proof (served_is_healthy B d P page Hserved) as Hlist.
  assert (Hinv : keys_only NewKey P s /\ follows_listing page total s).
  { destruct Hreach as [cs Hrun].
    eapply (run_invariant B NewKey d q
              (fun s => keys_only NewKey P s /\ follows_listing page total s));
      [| | exact Hrun].
    - intros c s0 s1 [Hkeys Hf] Hstep. split.
      + exact (keys_only_step B NewKey d q P Hk Hlist c s0 s1 Hkeys Hstep).
      + exact (follows_listing_step B NewKey d q P page total Hserved
                 c s0 s1 (proj1 (proj2 Hkeys)) Hf Hstep).
    - split.
      + apply (reachable_keys_only B NewKey d q P st); try assumption.
        now exists [].
      + exists total. simpl. eauto. }
  destruct Hinv as [(Hpan & _ & _ & Hlast & Hfs & _ & Hres)
                      (rest & Hleft & Htotal)].
  split; [exact Hpan |]. split; [exact Hfs |]. split; [| split; [| exact Hlast]].
  - exists rest. now rewrite Hres, <- fmap_app, Htotal.
  - intros Hret. rewrite Hret in Hleft. simpl in Hleft. subst rest.
    rewrite app_nil_r in Htotal. now rewrite Hres, Htotal.
Qed.

Lemma Query_keys_only_witness :
  Azure.q_results (keys_outcome Mem.sample)
  = [Azure.mkResult "/a/c" None 5 nil_err; Azure.mkResult "/a/b" None 5 nil_err].
Proof.
  refine (proj1 (proj2 (proj2 (proj2
    (Query_keys_only Mem.backend Mem.NewKey Mem.store for_keys
       (eq Mem.sample) (listing_page Mem.sample)
       [mkBlobItem "/a/c" (Some 5%Z); mkBlobItem "/a/b" (Some 5%Z)] 3
       (Mem.fresh Mem.sample) (keys_outcome Mem.sample)
       eq_refl eq_refl (Mem_pages_served Mem.sample eq_refl) _ _)))) _).
  - vm_compute. reflexivity.
  - exists (replicate 13 Azure.Lister). vm_compute. reflexivity.
  - vm_compute. reflexivity.
Defined.

(** ** Query: an entry lost to a failed listing *)

(** C5, at lines 312-316: a query for values over three blobs listed two
    per page, where [/a/c] cannot be read and the request for the second
    page fails.  The fetch of [/a/c] fails and its entry is sent with
    the failure in its error field.  The lister then closes the channel
    on the failed request; the fetch of [/a/b] gets its value from the
    backend and panics on its send: the entry of [/a/b] is never sent,
    and nothing runs after the panic. *)
Theorem Query_loses_entry_when_listing_fails :
  exists s,
    Azure.run Mem.backend Mem.NewKey Mem.store Mem.for_values losing_schedule
      (Azure.Query Mem.store Mem.for_values (Mem.fresh lossy)) = Some s
    /\ Azure.q_results s
       = [Azure.mkResult "/a/c" None 5 Mem.connection_reset]
    /\ Azure.q_fetches s !! 1%nat
       = Some (Azure.mkFetch Azure.Sending (mkKey "/a/b")
                 (Azure.mkResult "/a/b" (Some Mem.hello) 5 nil_err))
    /\ (Azure.Get Mem.backend Mem.store (mkKey "/a/b") (Mem.fresh lossy)).1
       = Done (Some Mem.hello, nil_err)
    /\ Azure.q_panic s = Some "send on closed channel"
    /\ forall c, Azure.step Mem.backend Mem.NewKey Mem.store Mem.for_values c s
                 = None.
Proof.
  eexists. split; [vm_compute; reflexivity |].
  repeat split; reflexivity.
Qed.
